(** * Luxury retail BI dashboard: the computation layer

    A shallow embedding of [modules/data_loader.py],
    [modules/kpi_calculator.py], [modules/alerts.py],
    [modules/visualizations.py] and the data flow of [app.py], and the
    properties of the specification checked against it.

    Modelling conventions.
    - A pandas/NumPy float is a value of [flt]: a finite value carried as an
      exact rational ([Qc]), or one of the three non-finite values.  Rounding
      is not modelled; signed zeros are not distinguished.
    - A timestamp is an integer number of microseconds ([Z]); [.date()] is
      the floor division by the length of a day.
    - The wall clock is an explicit argument [clock : nat -> timestamp]:
      [clock k] is what the k-th call of [datetime.now()] made by the
      modelled function returns.
    - The engines read typed rows ([SalesRecord], [InventoryRecord]); the
      ingestion functions work on raw frames ([DataFrame]) whose column
      names are data. *)

From stdpp Require Import gmap strings list sorting pretty.
From Stdlib Require Import QArith Qcanon.

Local Open Scope Z_scope.

(** ** Floats *)

Inductive flt : Type :=
| Fin (q : Qc)
| PInf
| NInf
| NaN.

#[global] Instance flt_eq_dec : EqDecision flt.
Proof. solve_decision. Defined.

Definition Qc0 : Qc := Qc_of_Z 0.
Definition Qc100 : Qc := Qc_of_Z 100.

Definition isnan (x : flt) : bool :=
  match x with NaN => true | _ => false end.


(** [x > 0]; every comparison with NaN is false. *)
Definition fgt0 (x : flt) : bool :=
  match x with
  | Fin q => bool_decide (Qc0 < q)%Qc
  | PInf => true
  | NInf | NaN => false
  end.

(** [a > b] *)
Definition fgt (a b : flt) : bool :=
  match a, b with
  | NaN, _ | _, NaN => false
  | Fin x, Fin y => bool_decide (y < x)%Qc
  | PInf, PInf => false
  | PInf, _ => true
  | _, NInf => match a with NInf => false | _ => true end
  | _, _ => false
  end.

Definition fneg (x : flt) : flt :=
  match x with
  | Fin q => Fin (- q)%Qc
  | PInf => NInf
  | NInf => PInf
  | NaN => NaN
  end.

Definition fadd (a b : flt) : flt :=
  match a, b with
  | NaN, _ | _, NaN => NaN
  | Fin x, Fin y => Fin (x + y)%Qc
  | PInf, NInf | NInf, PInf => NaN
  | PInf, _ | _, PInf => PInf
  | NInf, _ | _, NInf => NInf
  end.

Definition fsub (a b : flt) : flt := fadd a (fneg b).

(** The infinity carrying the sign of [q], NaN when [q] is zero. *)
Definition signed_inf (q : Qc) : flt :=
  if bool_decide (Qc0 < q)%Qc then PInf
  else if bool_decide (q < Qc0)%Qc then NInf
  else NaN.

Definition fmul (a b : flt) : flt :=
  match a, b with
  | NaN, _ | _, NaN => NaN
  | Fin x, Fin y => Fin (x * y)%Qc
  | Fin x, PInf | PInf, Fin x => signed_inf x
  | Fin x, NInf | NInf, Fin x => signed_inf (- x)%Qc
  | PInf, PInf | NInf, NInf => PInf
  | PInf, NInf | NInf, PInf => NInf
  end.

(** NumPy division: a finite value over zero is an infinity, 0/0 is NaN. *)
Definition fdiv (a b : flt) : flt :=
  match a, b with
  | NaN, _ | _, NaN => NaN
  | Fin x, Fin y =>
      if bool_decide (y = Qc0) then signed_inf x else Fin (x / y)%Qc
  | Fin _, _ => Fin Qc0
  | PInf, Fin y => if bool_decide (y < Qc0)%Qc then NInf else PInf
  | NInf, Fin y => if bool_decide (y < Qc0)%Qc then PInf else NInf
  | _, _ => NaN
  end.

Definition of_Z (n : Z) : flt := Fin (Qc_of_Z n).
Definition of_nat (n : nat) : flt := Fin (Qc_of_Z (Z.of_nat n)).


(** ** Series helpers *)

Definition sum_Qc (l : list Qc) : Qc := foldr Qcplus Qc0 l.
Definition sum_Z (l : list Z) : Z := foldr Z.add 0 l.


(** [Series.mean()] of finite values: NaN on the empty series. *)
Definition series_mean (l : list Qc) : flt :=
  match l with
  | [] => NaN
  | _ => Fin (sum_Qc l / Qc_of_Z (Z.of_nat (length l)))%Qc
  end.

(** [Series.max()] of timestamps: [None] is NaT. *)
Definition series_max (l : list Z) : option Z :=
  match l with
  | [] => None
  | x :: l' => Some (foldr Z.max x l')
  end.

(** [Series.nunique()] / [len(Series.unique())] *)
Definition nunique `{EqDecision A} (l : list A) : nat :=
  length (remove_dups l).

(** ** Time *)

Definition timestamp := Z.
Definition us_per_hour : Z := 3600000000.
Definition us_per_day : Z := 24 * us_per_hour.

(** [timedelta(days=n)] *)
Definition timedelta_days (n : Z) : Z := n * us_per_day.

(** [.date()], as a day number. *)
Definition date_of (t : timestamp) : Z := t `div` us_per_day.

(** [.hour] *)
Definition hour_of (t : timestamp) : Z := (t `mod` us_per_day) `div` us_per_hour.

(** ** Group keys

    [groupby] orders its groups by key; strings compare by code point. *)

Definition str_le (a b : string) : Prop := Is_true (String.leb a b).

Definition pair_le (a b : string * string) : Prop :=
  Is_true
    match String.compare a.1 b.1 with
    | Lt => true
    | Eq => String.leb a.2 b.2
    | Gt => false
    end.

#[global] Instance str_le_dec : RelDecision str_le.
Proof. intros a b. unfold str_le. apply _. Defined.

#[global] Instance pair_le_dec : RelDecision pair_le.
Proof. intros a b. unfold pair_le. apply _. Defined.

(** [df.groupby(key)]: one group per distinct key, in key order, each
    holding its rows in table order. *)
Definition groupby {A K : Type} `{EqDecision K} (R : relation K)
    `{!RelDecision R} (key : A → K) (rows : list A) : list (K * list A) :=
  (λ k, (k, filter (λ r, key r = k) rows))
    <$> merge_sort R (remove_dups (key <$> rows)).

(** ** The data model *)

Module Sales.

Record SalesRecord : Type := {
  Date : timestamp;
  Boutique_ID : string;
  Boutique_Name : string;
  Region : string;
  SKU_Code : string;
  Product_Category : string;
  Brand : string;
  Units_Sold : Z;
  Revenue_Local_Currency : Qc;
  Revenue_USD : Qc;
  Transaction_ID : string;
  Sales_Associate_ID : string;
  Customer_Type : string;
  Payment_Method : string
}.

Definition on_date (d : Z) (rows : list SalesRecord) : list SalesRecord :=
  filter (λ r, date_of (Date r) = d) rows.

Definition revenue (rows : list SalesRecord) : Qc :=
  sum_Qc (Revenue_USD <$> rows).

Definition units (rows : list SalesRecord) : Z :=
  sum_Z (Units_Sold <$> rows).

Definition transactions (rows : list SalesRecord) : nat :=
  nunique (Transaction_ID <$> rows).

End Sales.

Module Inventory.

Record InventoryRecord : Type := {
  Date : timestamp;
  Boutique_ID : string;
  SKU_Code : string;
  Product_Name : string;
  Category : string;
  Brand : string;
  Current_Stock_Units : Z;
  Min_Stock_Threshold : Z;
  Max_Stock_Threshold : Z;
  Unit_Cost : Qc;
  Retail_Price : Qc;
  Last_Restock_Date : option timestamp;   (* [None] is NaT *)
  Supplier_Lead_Time_Days : Z;
  Days_Since_Restock : option Z            (* derived column; [None] is NaN *)
}.

(** An inventory frame: its column names and its rows.  The columns the
    engines read unconditionally are taken to be present; [columns] decides
    the lookups the code itself makes conditional, and a field whose column
    is not listed carries no information. *)
Record InventoryTable : Type := {
  columns : list string;
  rows : list InventoryRecord
}.

Definition stock_value (rs : list InventoryRecord) : Qc :=
  sum_Qc ((λ r, Qc_of_Z (Current_Stock_Units r) * Unit_Cost r)%Qc <$> rs).

Definition low_stock (rs : list InventoryRecord) : list InventoryRecord :=
  filter (λ r, Current_Stock_Units r ≤ Min_Stock_Threshold r) rs.

Definition stockout (rs : list InventoryRecord) : list InventoryRecord :=
  filter (λ r, Current_Stock_Units r = 0) rs.

End Inventory.

(** ** kpi_calculator.py *)

Module Kpi.
Import Sales.

Record KpiResult : Type := {
  daily_revenue : flt;
  revenue_growth : flt;
  atv : flt;
  atv_change : flt;
  conversion_rate : flt;
  conversion_change : flt;
  inventory_turnover : flt;
  low_stock_items : nat;
  stockout_risk : nat
}.

(** The rows taken as "today" and as "yesterday": the rows dated on the
    wall-clock day and the day before it, or, when no row is dated on the
    wall-clock day, the rows on the day of the latest timestamp and the
    rows on the day of (latest - 1 day). *)
Definition resolve_days (now : timestamp) (sales_data : list SalesRecord)
    : list SalesRecord * list SalesRecord :=
  let today := date_of now in
  let today_data := on_date today sales_data in
  let yesterday_data := on_date (today - 1) sales_data in
  if bool_decide (length today_data = 0%nat) then
    match series_max (Date <$> sales_data) with
    | Some latest_date =>
        let prev_date := latest_date - timedelta_days 1 in
        (on_date (date_of latest_date) sales_data,
         on_date (date_of prev_date) sales_data)
    | None => ([], [])          (* NaT equals no date *)
    end
  else (today_data, yesterday_data).

(** [rows.groupby('Transaction_ID')['Revenue_USD'].sum().mean()] *)
Definition mean_transaction_value (rows : list SalesRecord) : flt :=
  series_mean ((λ g, revenue g.2) <$> groupby str_le Transaction_ID rows).

(** [len(rows['Boutique_ID'].unique()) * 100] *)
Definition visitors (rows : list SalesRecord) : nat :=
  (nunique (Boutique_ID <$> rows) * 100)%nat.

Definition pct_change (cur prev : flt) : flt :=
  if fgt0 prev then fmul (fdiv (fsub cur prev) prev) (Fin Qc100)
  else Fin Qc0.

Definition conversion (rows : list SalesRecord) : flt :=
  if bool_decide (0 < visitors rows)%nat then
    fmul (fdiv (of_nat (transactions rows)) (of_nat (visitors rows)))
         (Fin Qc100)
  else Fin Qc0.

Definition calculate_kpis (clock : nat → timestamp)
    (sales_data : list SalesRecord)
    (inventory_data : list Inventory.InventoryRecord) : KpiResult :=
  let '(today_data, yesterday_data) := resolve_days (clock 0%nat) sales_data in
  (* Daily revenue *)
  let daily_revenue := Fin (revenue today_data) in
  let prev_revenue := Fin (revenue yesterday_data) in
  let revenue_growth := pct_change daily_revenue prev_revenue in
  (* Average transaction value *)
  let atv := mean_transaction_value today_data in
  let prev_atv := mean_transaction_value yesterday_data in
  let atv_change := pct_change atv prev_atv in
  (* Conversion rate *)
  let conversion_rate := conversion today_data in
  let prev_conversion := conversion yesterday_data in
  let conversion_change := fsub conversion_rate prev_conversion in
  (* Inventory turnover *)
  let total_inventory_value := Fin (Inventory.stock_value inventory_data) in
  let last_30_days :=
    filter (λ r, clock 1%nat - timedelta_days 30 ≤ Date r) sales_data in
  let cogs_30_days :=
    fmul (of_Z (units last_30_days))
         (series_mean (Inventory.Unit_Cost <$> inventory_data)) in
  let annual_cogs := fmul cogs_30_days (of_Z 12) in
  let inventory_turnover :=
    if fgt0 total_inventory_value
    then fdiv annual_cogs total_inventory_value else Fin Qc0 in
  {| daily_revenue := daily_revenue;
     revenue_growth := revenue_growth;
     atv := if isnan atv then Fin Qc0 else atv;
     atv_change := if isnan atv_change then Fin Qc0 else atv_change;
     conversion_rate := conversion_rate;
     conversion_change := conversion_change;
     inventory_turnover := inventory_turnover;
     low_stock_items := length (Inventory.low_stock inventory_data);
     stockout_risk := length (Inventory.stockout inventory_data) |}.

Record BoutiqueMetric : Type := {
  bm_Boutique_Name : string;
  bm_Region : string;
  bm_Revenue : Qc;
  bm_Units_Sold : Z;
  bm_Transactions : nat;
  bm_Estimated_Visitors : Z;
  bm_Conversion_Rate : flt;
  bm_ATV : flt
}.

(** Rows kept by [sales_data['Date'] >= latest_date - timedelta(days=7)];
    with no latest date (NaT) the comparison is false on every row. *)
Definition last_7_days (sales_data : list SalesRecord) : list SalesRecord :=
  match series_max (Date <$> sales_data) with
  | Some latest_date =>
      filter (λ r, latest_date - timedelta_days 7 ≤ Date r) sales_data
  | None => []
  end.

Definition boutique_key (r : SalesRecord) : string * string :=
  (Boutique_Name r, Region r).

Definition boutique_row (g : (string * string) * list SalesRecord)
    : BoutiqueMetric :=
  let Revenue := revenue g.2 in
  let Transactions := transactions g.2 in
  let Estimated_Visitors := 700 in
  {| bm_Boutique_Name := g.1.1;
     bm_Region := g.1.2;
     bm_Revenue := Revenue;
     bm_Units_Sold := units g.2;
     bm_Transactions := Transactions;
     bm_Estimated_Visitors := Estimated_Visitors;
     bm_Conversion_Rate :=
       fmul (fdiv (of_nat Transactions) (of_Z Estimated_Visitors))
            (Fin Qc100);
     bm_ATV := fdiv (Fin Revenue) (of_nat Transactions) |}.

(** Descending order on a revenue column, as used by
    [sort_values('Revenue', ascending=False)].  The order pandas gives to
    rows of equal revenue is unspecified; the model keeps them in group
    order. *)
Definition revenue_desc {A} (rev : A → Qc) : relation A :=
  λ a b, (rev b ≤ rev a)%Qc.

#[global] Instance revenue_desc_dec {A} (rev : A → Qc)
  : RelDecision (revenue_desc rev).
Proof. intros a b. unfold revenue_desc. apply _. Defined.

Definition calculate_boutique_metrics (sales_data : list SalesRecord)
    : list BoutiqueMetric :=
  merge_sort (revenue_desc bm_Revenue)
    (boutique_row <$> groupby pair_le boutique_key (last_7_days sales_data)).

Record CategoryMetric : Type := {
  cm_Category : string;
  cm_Revenue : Qc;
  cm_Units_Sold : Z;
  cm_Transactions : nat;
  cm_Revenue_Share : flt
}.

(** The aggregated frame before [Revenue_Share] is added. *)
Definition category_groups (sales_data : list SalesRecord)
    : list (string * list SalesRecord) :=
  groupby str_le Product_Category sales_data.

Definition calculate_category_performance (sales_data : list SalesRecord)
    : list CategoryMetric :=
  let groups := category_groups sales_data in
  let total := sum_Qc ((λ g, revenue g.2) <$> groups) in
  merge_sort (revenue_desc cm_Revenue)
    ((λ g, {| cm_Category := g.1;
              cm_Revenue := revenue g.2;
              cm_Units_Sold := units g.2;
              cm_Transactions := transactions g.2;
              cm_Revenue_Share :=
                fmul (fdiv (Fin (revenue g.2)) (Fin total)) (Fin Qc100) |})
       <$> groups).

End Kpi.

(** ** alerts.py *)

Module Alerts.
Import Inventory.

Record AlertLists : Type := {
  critical : list string;
  warning : list string
}.

Definition add_critical (msgs : list string) (a : AlertLists) : AlertLists :=
  {| critical := critical a ++ msgs; warning := warning a |}.

Definition add_warning (msgs : list string) (a : AlertLists) : AlertLists :=
  {| critical := critical a; warning := warning a ++ msgs |}.

Definition default_thresholds : gmap string Qc :=
  list_to_map
    [("revenue_drop_pct", Qc_of_Z 15);
     ("sales_target_miss_pct", Qc_of_Z 20);
     ("low_stock_threshold", Qc_of_Z 5);
     ("conversion_drop_pct", Qc_of_Z 25);
     ("inventory_turnover_min", Qc_of_Z 2);
     ("shrinkage_rate_max", (Qc_of_Z 3 / Qc_of_Z 2)%Qc)].

(** [{**default_thresholds, **thresholds}]: supplied values win. *)
Definition merge_thresholds (thresholds : gmap string Qc) : gmap string Qc :=
  thresholds ∪ default_thresholds.

Definition Qc_abs (q : Qc) : Qc :=
  if bool_decide (q < Qc0)%Qc then (- q)%Qc else q.

Definition set_Days_Since_Restock (d : option Z) (r : InventoryRecord)
    : InventoryRecord :=
  {| Date := Date r;
     Boutique_ID := Boutique_ID r;
     SKU_Code := SKU_Code r;
     Product_Name := Product_Name r;
     Category := Category r;
     Brand := Brand r;
     Current_Stock_Units := Current_Stock_Units r;
     Min_Stock_Threshold := Min_Stock_Threshold r;
     Max_Stock_Threshold := Max_Stock_Threshold r;
     Unit_Cost := Unit_Cost r;
     Retail_Price := Retail_Price r;
     Last_Restock_Date := Last_Restock_Date r;
     Supplier_Lead_Time_Days := Supplier_Lead_Time_Days r;
     Days_Since_Restock := d |}.

(** [(now - Last_Restock_Date).dt.days]; NaT gives NaN. *)
Definition days_since (now : timestamp) (t : option timestamp) : option Z :=
  (λ t, (now - t) `div` us_per_day) <$> t.

(** [inventory_data['Days_Since_Restock'] = ...]: the column is written
    into the frame that was passed in; a new name goes last. *)
Definition assign_Days_Since_Restock (now : timestamp)
    (inventory_data : InventoryTable) : InventoryTable :=
  {| columns :=
       if bool_decide ("Days_Since_Restock" ∈ columns inventory_data)
       then columns inventory_data
       else columns inventory_data ++ ["Days_Since_Restock"];
     rows :=
       (λ r, set_Days_Since_Restock (days_since now (Last_Restock_Date r)) r)
         <$> rows inventory_data |}.

(** [(Days_Since_Restock > 180) & (Current_Stock_Units > 0)]; NaN is
    greater than nothing. *)
Definition is_dead (r : InventoryRecord) : bool :=
  match Days_Since_Restock r with
  | Some d => bool_decide (180 < d)
  | None => false
  end && bool_decide (0 < Current_Stock_Units r).

(** A line in stock whose last restock lies at least 181 days back. *)
Definition stale (now : timestamp) (r : InventoryRecord) : Prop :=
  0 < Current_Stock_Units r ∧
  ∃ t, Last_Restock_Date r = Some t ∧ timedelta_days 181 ≤ now - t.

#[global] Instance stale_dec (now : timestamp) (r : InventoryRecord)
  : Decision (stale now r).
Proof.
  unfold stale. destruct (Last_Restock_Date r) as [t|].
  - destruct (decide (0 < Current_Stock_Units r
                      ∧ timedelta_days 181 ≤ now - t)) as [[? ?]|Hn].
    + left. eauto.
    + right. intros (? & t' & [= <-] & ?). by apply Hn.
  - right. by intros (_ & t & [=] & _).
Defined.

Definition stockout_message (cols : list string) (item : InventoryRecord)
    : string :=
  "STOCKOUT: " +:+ Product_Name item +:+ " at " +:+
    (if bool_decide ("Boutique_ID" ∈ cols) then Boutique_ID item
     else "Unknown").

Section check_alerts.
(** [format(x, '.1f')] *)
Variable fmt_1f : Qc → string.

(** The rules over the sales table. *)
Definition sales_alerts (hour_now : timestamp)
    (sales_data : list Sales.SalesRecord) (thresholds : gmap string Qc)
    (alerts : AlertLists) : AlertLists :=
  match series_max (Sales.Date <$> sales_data) with
  | None => alerts
  | Some latest =>
      let latest_date := date_of latest in
      let today_data := Sales.on_date latest_date sales_data in
      let week_ago := latest_date - 7 in
      let week_ago_data := Sales.on_date week_ago sales_data in
      (* Revenue drop *)
      let today_revenue := Sales.revenue today_data in
      let week_ago_revenue := Sales.revenue week_ago_data in
      let alerts :=
        if bool_decide (Qc0 < week_ago_revenue)%Qc then
          let revenue_change :=
            ((today_revenue - week_ago_revenue) / week_ago_revenue
             * Qc100)%Qc in
          if bool_decide
               (revenue_change <
                - default Qc0 (thresholds !! "revenue_drop_pct"))%Qc
          then add_critical
                 ["Revenue dropped " +:+ fmt_1f (Qc_abs revenue_change)
                  +:+ "% vs. same day last week"] alerts
          else alerts
        else alerts in
      (* Boutique performance *)
      let boutique_revenue :=
        (λ g, (g.1, Sales.revenue g.2))
          <$> groupby str_le Sales.Boutique_Name today_data in
      let avg_boutique_revenue := series_mean (boutique_revenue.*2) in
      let alerts :=
        add_warning
          ((λ b, b.1 +:+ " revenue significantly below network average")
             <$> filter
                   (λ b, fgt (fmul avg_boutique_revenue
                                   (Fin (1 / 2)%Qc)) (Fin b.2) = true)
                   boutique_revenue)
          alerts in
      (* Zero transactions, after 2 PM *)
      let current_hour := hour_of hour_now in
      if bool_decide (14 ≤ current_hour) then
        let boutiques_with_sales : gset string :=
          list_to_set (Sales.Boutique_Name <$> today_data) in
        let all_boutiques : gset string :=
          list_to_set (Sales.Boutique_Name <$> sales_data) in
        let no_sales_boutiques := all_boutiques ∖ boutiques_with_sales in
        add_critical
          ((λ b, b +:+ " has ZERO transactions today")
             <$> elements no_sales_boutiques)
          alerts
      else alerts
  end.

(** The rules over the inventory table, with the table as the call
    leaves it. *)
Definition inventory_alerts (restock_now : timestamp)
    (inventory_data : InventoryTable) (alerts : AlertLists)
    : AlertLists * InventoryTable :=
  if bool_decide (0 < length (rows inventory_data))%nat then
    (* Low stock *)
    let low := low_stock (rows inventory_data) in
    let alerts :=
      if bool_decide (0 < length low)%nat then
        add_warning
          [pretty (length low) +:+ " SKUs below minimum stock threshold"]
          alerts
      else alerts in
    (* Stockout *)
    let out := stockout (rows inventory_data) in
    let alerts :=
      if bool_decide (0 < length out)%nat then
        add_critical
          (stockout_message (columns inventory_data) <$> take 5 out)
          alerts
      else alerts in
    (* Dead stock *)
    if bool_decide ("Last_Restock_Date" ∈ columns inventory_data) then
      let inventory_data :=
        assign_Days_Since_Restock restock_now inventory_data in
      let dead_stock :=
        filter (λ r, is_dead r = true) (rows inventory_data) in
      let alerts :=
        if bool_decide (0 < length dead_stock)%nat then
          let dead_stock_value := stock_value dead_stock in
          let total_inventory_value :=
            stock_value (rows inventory_data) in
          let dead_stock_pct :=
            if bool_decide (Qc0 < total_inventory_value)%Qc
            then (dead_stock_value / total_inventory_value * Qc100)%Qc
            else Qc0 in
          if bool_decide (Qc_of_Z 10 < dead_stock_pct)%Qc then
            add_warning
              ["Dead stock (>180 days) represents "
               +:+ fmt_1f dead_stock_pct +:+ "% of inventory value"]
              alerts
          else alerts
        else alerts in
      (alerts, inventory_data)
    else (alerts, inventory_data)
  else (alerts, inventory_data).

(** [check_alerts]: the alert lists, and the inventory frame after the
    call.  [clock 0] is the unused [today]; the hour is read only when
    the sales table has rows. *)
Definition check_alerts (clock : nat → timestamp)
    (sales_data : list Sales.SalesRecord)
    (inventory_data : InventoryTable) (thresholds : gmap string Qc)
    : AlertLists * InventoryTable :=
  let alerts := {| critical := []; warning := [] |} in
  let thresholds := merge_thresholds thresholds in
  let has_sales := bool_decide (0 < length sales_data)%nat in
  let alerts :=
    if has_sales
    then sales_alerts (clock 1%nat) sales_data thresholds alerts
    else alerts in
  inventory_alerts (clock (if has_sales then 2%nat else 1%nat))
    inventory_data alerts.

End check_alerts.

End Alerts.

(** ** data_loader.py *)

Module Loader.

(** A raw frame as the readers return it: named columns of cells. *)
Inductive Cell : Type :=
| CStr (s : string)
| CInt (z : Z)
| CNum (q : Qc)
| CTime (t : timestamp)
| CNull.

Record DataFrame : Type := {
  series : list (string * list Cell)
}.

Definition columns (df : DataFrame) : list string := (series df).*1.

(** [df[name]]: [None] stands for the [KeyError]. *)
Definition get_column (name : string) (df : DataFrame) : option (list Cell) :=
  snd <$> head (filter (λ c, c.1 = name) (series df)).

(** [df[name] = col] on a column that exists. *)
Definition set_column (name : string) (col : list Cell) (df : DataFrame)
    : DataFrame :=
  {| series :=
       (λ c, if bool_decide (c.1 = name) then (c.1, col) else c)
         <$> series df |}.

(** [sep.join(parts)] *)
Definition join (sep : string) (parts : list string) : string :=
  String.concat sep parts.

(** [s.endswith(suffix)] *)
Definition endswith (s suffix : string) : bool :=
  bool_decide (String.length suffix ≤ String.length s)%nat
  && String.eqb
       (String.substring (String.length s - String.length suffix)
          (String.length suffix) s)
       suffix.

(** The set difference is iterated in the order of [elements]: like the
    iteration order of a Python set, it is fixed by the members and not by
    the order in which they were given. *)
Definition validate_excel (df : DataFrame) (required_columns : list string)
    (file_type : string) : list string :=
  let errors := [] in
  let missing_cols : gset string :=
    list_to_set required_columns ∖ list_to_set (columns df) in
  if bool_decide (missing_cols ≠ ∅) then
    errors ++ [file_type +:+ " is missing columns: "
               +:+ join ", " (elements missing_cols)]
  else errors.

Definition sales_columns : list string :=
  ["Date"; "Boutique_ID"; "Boutique_Name"; "Region"; "SKU_Code";
   "Product_Category"; "Brand"; "Units_Sold"; "Revenue_USD";
   "Transaction_ID"; "Customer_Type"].

Definition inventory_columns : list string :=
  ["Date"; "Boutique_ID"; "SKU_Code"; "Product_Name"; "Category";
   "Brand"; "Current_Stock_Units"; "Min_Stock_Threshold"; "Retail_Price"].

Record UploadedFile : Type := {
  name : string;
  content : list Byte.byte
}.

Section load_data.
(** The pandas entry points; [inl msg] is an exception whose [str] is
    [msg]. *)
Variable read_csv : UploadedFile → string + DataFrame.
Variable read_excel : UploadedFile → string + DataFrame.
Variable to_datetime : list Cell → string + list Cell.

(** The body of one [try] block of [load_data] and its [except]
    handler: the table, or [None], with the error list as the block
    leaves it. *)
(** The reader chosen by the extension of the file name. *)
Definition read_table (file : UploadedFile) : string + DataFrame :=
  if endswith (name file) ".csv" then read_csv file else read_excel file.

Definition try_load (file : UploadedFile) (required : list string)
    (file_type : string) (load_error : string) (errors : list string)
    : option DataFrame * list string :=
  match read_table file with
  | inl e => (None, errors ++ [load_error +:+ e])
  | inr data =>
      let errors := errors ++ validate_excel data required file_type in
      match get_column "Date" data with
      | None => (None, errors ++ [load_error +:+ "'Date'"])
      | Some col =>
          match to_datetime col with
          | inl e => (None, errors ++ [load_error +:+ e])
          | inr dates => (Some (set_column "Date" dates data), errors)
          end
      end
  end.

Definition load_data (sales_file inventory_file : UploadedFile)
    : option DataFrame * option DataFrame * list string :=
  let errors := [] in
  let '(sales_data, errors) :=
    try_load sales_file sales_columns "Sales Report"
      "Error loading sales file: " errors in
  let '(inventory_data, errors) :=
    try_load inventory_file inventory_columns "Inventory Report"
      "Error loading inventory file: " errors in
  (sales_data, inventory_data, errors).

End load_data.

(** *** The demo generator *)

(** NumPy's global generator, as an interface: seeding replaces the state,
    every draw returns a value and the next state. *)
Class RandomState (G : Type) : Type := {
  rs_seed : Z → G;
  rs_randint : Z → Z → G → Z * G;
  rs_choice : list string → option (list Qc) → G → string * G
}.

(** What the generator reads and writes besides its result: the global
    random state, and how many times the clock has been read. *)
Record World (G : Type) : Type := {
  rng : G;
  ticks : nat
}.
Arguments rng {G} _.
Arguments ticks {G} _.

Definition M (G A : Type) : Type := World G → A * World G.

#[global] Instance M_ret {G} : MRet (M G) := λ A x w, (x, w).
#[global] Instance M_bind {G} : MBind (M G) :=
  λ A B f m w, let '(x, w') := m w in f x w'.

Section generate_demo_data.
Context {G : Type} `{!RandomState G}.
Variable clock : nat → timestamp.
(** [date.strftime('%Y%m%d')] *)
Variable strftime_Ymd : timestamp → string.

Definition seed (n : Z) : M G unit :=
  λ w, (tt, {| rng := rs_seed n; ticks := ticks w |}).

Definition randint (low high : Z) : M G Z :=
  λ w, let '(x, g) := rs_randint low high (rng w) in
       (x, {| rng := g; ticks := ticks w |}).

Definition choice (a : list string) (p : option (list Qc)) : M G string :=
  λ w, let '(x, g) := rs_choice a p (rng w) in
       (x, {| rng := g; ticks := ticks w |}).

Definition datetime_now : M G timestamp :=
  λ w, (clock (ticks w), {| rng := rng w; ticks := S (ticks w) |}).

(** A [for] loop whose body appends records to a list. *)
Fixpoint for_each {A B : Type} (xs : list A) (body : A → M G (list B))
    : M G (list B) :=
  match xs with
  | [] => mret []
  | x :: xs' =>
      r ← body x; rs ← for_each xs' body; mret (r ++ rs)
  end.

(** [f"{n:0{width}d}"] for a natural number *)
Definition zfill (width : nat) (n : nat) : string :=
  let s := pretty n in
  String.concat "" (replicate (width - String.length s) "0") +:+ s.

(** [boutiques.index(boutique)] *)
Definition index (xs : list string) (x : string) : nat :=
  from_option fst 0%nat (list_find (λ y, y = x) xs).

(** [pd.date_range(end=e, periods=n, freq='D')] *)
Definition date_range (e : timestamp) (periods : nat) : list timestamp :=
  (λ k, e - timedelta_days (Z.of_nat (periods - 1 - k)))
    <$> seq 0 periods.

Definition boutiques : list string :=
  ["Dubai Mall"; "Paris Champs-Élysées"; "London Bond Street";
   "NYC Fifth Avenue"; "Tokyo Ginza"; "Hong Kong Central"].
Definition regions : list string :=
  ["Middle East"; "Europe"; "Europe"; "Americas"; "Asia"; "Asia"].
Definition categories : list string :=
  ["Watches"; "Jewelry"; "Accessories"].
Definition brands : list string :=
  ["Rolex"; "Cartier"; "Patek Philippe"; "Van Cleef & Arpels"].

Definition boutique_id (boutique : string) : string :=
  "BTQ" +:+ zfill 3 (index boutiques boutique + 1).

Definition sales_record (date : timestamp) (boutique region : string)
    (i : nat) : M G Sales.SalesRecord :=
  sku ← randint 1000 9999;
  category ← choice categories None;
  brand ← choice brands None;
  units ← randint 1 4;
  revenue_local ← randint 5000 50000;
  revenue_usd ← randint 5000 50000;
  associate ← randint 100 999;
  customer ←
    choice ["New"; "Returning"; "VIP"]
      (Some [(Qc_of_Z 3 / Qc_of_Z 10)%Qc; (Qc_of_Z 5 / Qc_of_Z 10)%Qc;
             (Qc_of_Z 2 / Qc_of_Z 10)%Qc]);
  payment ← choice ["Credit Card"; "Cash"; "Wire Transfer"] None;
  mret
    {| Sales.Date := date;
       Sales.Boutique_ID := boutique_id boutique;
       Sales.Boutique_Name := boutique;
       Sales.Region := region;
       Sales.SKU_Code := "SKU" +:+ pretty sku;
       Sales.Product_Category := category;
       Sales.Brand := brand;
       Sales.Units_Sold := units;
       Sales.Revenue_Local_Currency := Qc_of_Z revenue_local;
       Sales.Revenue_USD := Qc_of_Z revenue_usd;
       Sales.Transaction_ID := "TXN" +:+ strftime_Ymd date +:+ zfill 4 i;
       Sales.Sales_Associate_ID := "SA" +:+ pretty associate;
       Sales.Customer_Type := customer;
       Sales.Payment_Method := payment |}.

Definition inventory_record (boutique : string) (i : nat)
    : M G Inventory.InventoryRecord :=
  current_stock ← randint 0 20;
  let min_threshold := 5 in
  date ← datetime_now;
  category ← choice categories None;
  brand ← choice brands None;
  unit_cost ← randint 2000 20000;
  retail_price ← randint 5000 50000;
  restock_now ← datetime_now;
  restock_age ← randint 1 60;
  lead_time ← randint 7 30;
  mret
    {| Inventory.Date := date;
       Inventory.Boutique_ID := boutique_id boutique;
       Inventory.SKU_Code := "SKU" +:+ pretty (1000 + i)%nat;
       Inventory.Product_Name := "Luxury Item " +:+ pretty i;
       Inventory.Category := category;
       Inventory.Brand := brand;
       Inventory.Current_Stock_Units := current_stock;
       Inventory.Min_Stock_Threshold := min_threshold;
       Inventory.Max_Stock_Threshold := 20;
       Inventory.Unit_Cost := Qc_of_Z unit_cost;
       Inventory.Retail_Price := Qc_of_Z retail_price;
       Inventory.Last_Restock_Date :=
         Some (restock_now - timedelta_days restock_age);
       Inventory.Supplier_Lead_Time_Days := lead_time;
       Inventory.Days_Since_Restock := None |}.

Definition demo_inventory_columns : list string :=
  ["Date"; "Boutique_ID"; "SKU_Code"; "Product_Name"; "Category";
   "Brand"; "Current_Stock_Units"; "Min_Stock_Threshold";
   "Max_Stock_Threshold"; "Unit_Cost"; "Retail_Price";
   "Last_Restock_Date"; "Supplier_Lead_Time_Days"].

Definition demo_sales (dates : list timestamp)
    : M G (list Sales.SalesRecord) :=
  for_each dates (λ date,
    for_each (zip boutiques regions) (λ br,
      num_transactions ← randint 5 16;
      for_each (seq 0 (Z.to_nat num_transactions)) (λ i,
        r ← sales_record date br.1 br.2 i; mret [r]))).

Definition demo_inventory : M G (list Inventory.InventoryRecord) :=
  for_each boutiques (λ boutique,
    for_each (seq 0 50) (λ i,
      r ← inventory_record boutique i; mret [r])).

(** The body of [generate_demo_data] after the seeding. *)
Definition demo_tables
    : M G (list Sales.SalesRecord * Inventory.InventoryTable) :=
  e ← datetime_now;
  let dates := date_range e 30 in
  sales_data ← demo_sales dates;
  inventory_records ← demo_inventory;
  mret (sales_data,
        {| Inventory.columns := demo_inventory_columns;
           Inventory.rows := inventory_records |}).

Definition generate_demo_data_M
    : M G (list Sales.SalesRecord * Inventory.InventoryTable) :=
  _ ← seed 42; demo_tables.

(** One call of [generate_demo_data], entered with the global random
    state [g]: the two tables, and the random state it leaves. *)
Definition generate_demo_data (g : G)
    : (list Sales.SalesRecord * Inventory.InventoryTable) * G :=
  let '(r, w) := generate_demo_data_M {| rng := g; ticks := 0 |} in
  (r, rng w).

End generate_demo_data.

(** The fields of a generated row that do not come from the clock. *)
Definition sales_drawn (r : Sales.SalesRecord) :=
  (Sales.Boutique_ID r, Sales.Boutique_Name r, Sales.Region r,
   Sales.SKU_Code r, Sales.Product_Category r, Sales.Brand r,
   Sales.Units_Sold r, Sales.Revenue_Local_Currency r, Sales.Revenue_USD r,
   Sales.Sales_Associate_ID r, Sales.Customer_Type r,
   Sales.Payment_Method r).

Definition inventory_drawn (r : Inventory.InventoryRecord) :=
  (Inventory.Boutique_ID r, Inventory.SKU_Code r, Inventory.Product_Name r,
   Inventory.Category r, Inventory.Brand r, Inventory.Current_Stock_Units r,
   Inventory.Min_Stock_Threshold r, Inventory.Max_Stock_Threshold r,
   Inventory.Unit_Cost r, Inventory.Retail_Price r,
   Inventory.Supplier_Lead_Time_Days r, Inventory.Days_Since_Restock r).

(** Two runs side by side.  The worlds are related when they hold the same
    random state and clock counters related by [T]; two computations are
    related when, from related worlds, they end in related worlds with
    results related by [R]. *)
Definition related_worlds {G : Type} (T : relation nat) (w1 w2 : World G)
    : Prop :=
  rng w1 = rng w2 ∧ T (ticks w1) (ticks w2).

Definition related_runs {G A B : Type} (T : relation nat) (R : A → B → Prop)
    (m1 : M G A) (m2 : M G B) : Prop :=
  ∀ w1 w2, related_worlds T w1 w2 →
    R (m1 w1).1 (m2 w2).1 ∧ related_worlds T (m1 w1).2 (m2 w2).2.

(** Two generated sales rows: dates related by [Rt], the same transaction
    number when the dates are the same, the same drawn fields. *)
Definition related_sales (Rt : relation timestamp)
    (r1 r2 : Sales.SalesRecord) : Prop :=
  Rt (Sales.Date r1) (Sales.Date r2) ∧
  (Sales.Date r1 = Sales.Date r2 →
   Sales.Transaction_ID r1 = Sales.Transaction_ID r2) ∧
  sales_drawn r1 = sales_drawn r2.

Definition related_inventory (Rt : relation timestamp)
    (r1 r2 : Inventory.InventoryRecord) : Prop :=
  Rt (Inventory.Date r1) (Inventory.Date r2) ∧
  option_Forall2 Rt (Inventory.Last_Restock_Date r1)
    (Inventory.Last_Restock_Date r2) ∧
  inventory_drawn r1 = inventory_drawn r2.

(** One run: every result of the computation satisfies [P], whatever the
    world it starts from. *)
Definition always_returns {G A : Type} (P : A → Prop) (m : M G A) : Prop :=
  ∀ w, P (m w).1.

(** A random state whose [randint] keeps to its half-open range. *)
Definition randint_in_range (G : Type) `{!RandomState G} : Prop :=
  ∀ low high g, low < high →
    low ≤ (rs_randint low high g).1 < high.

End Loader.

(** ** visualizations.py

    The plotting library is outside the model: a chart is the data it is
    given, with its title. *)

Module Visualizations.

Record LineChart : Type := {
  lc_title : string;
  lc_x : list Z;
  lc_y : list Qc
}.

Record GroupedBars : Type := {
  gb_title : string;
  gb_x : list string;
  gb_current_stock : list Z;
  gb_min_threshold : list Z
}.


(** [sales_data.groupby(sales_data['Date'].dt.date)['Revenue_USD'].sum()]:
    one row per calendar date, in date order. *)
Definition daily_revenue (sales_data : list Sales.SalesRecord)
    : list (Z * Qc) :=
  (λ g, (g.1, Sales.revenue g.2))
    <$> groupby Z.le (λ r, date_of (Sales.Date r)) sales_data.

Definition create_revenue_chart (sales_data : list Sales.SalesRecord)
    : LineChart :=
  let daily_revenue := daily_revenue sales_data in
  {| lc_title := "Daily Revenue Trend";
     lc_x := daily_revenue.*1;
     lc_y := daily_revenue.*2 |}.

(** [inventory_data.groupby('Category').agg({...: 'sum'})] *)
Definition category_stock (inventory_data : list Inventory.InventoryRecord)
    : list (string * (Z * Z)) :=
  (λ g, (g.1, (sum_Z (Inventory.Current_Stock_Units <$> g.2),
               sum_Z (Inventory.Min_Stock_Threshold <$> g.2))))
    <$> groupby str_le Inventory.Category inventory_data.

Definition create_inventory_chart
    (inventory_data : list Inventory.InventoryRecord) : GroupedBars :=
  let category_stock := category_stock inventory_data in
  {| gb_title := "Inventory Levels by Category";
     gb_x := category_stock.*1;
     gb_current_stock := (λ c, c.2.1) <$> category_stock;
     gb_min_threshold := (λ c, c.2.2) <$> category_stock |}.


End Visualizations.

(** ** app.py

    Of the page script, the two steps that decide which data the engines
    see: the upload handler and the top-five selection. *)

Module App.

(** The two tables kept in [st.session_state]. *)
Record Session : Type := {
  sales_data : option Loader.DataFrame;
  inventory_data : option Loader.DataFrame
}.

Inductive Notice : Type :=
| NoticeError (text : string)
| NoticeSuccess (text : string)
| NoticeWarning (text : string).

Section process_uploaded_data.
Variable read_csv : Loader.UploadedFile → string + Loader.DataFrame.
Variable read_excel : Loader.UploadedFile → string + Loader.DataFrame.
Variable to_datetime : list Loader.Cell → string + list Loader.Cell.

(** The handler of the "Process Uploaded Data" button: the session after
    the click and the notice shown.  The session entries are written only
    on the success branch. *)
Definition process_uploaded_data
    (sales_file inventory_file : option Loader.UploadedFile)
    (session : Session) : Session * Notice :=
  match sales_file, inventory_file with
  | Some sales_file, Some inventory_file =>
      let '(sales, inventory, errors) :=
        Loader.load_data read_csv read_excel to_datetime
          sales_file inventory_file in
      if bool_decide (errors ≠ []) then
        (session, NoticeError (Loader.join "
" errors))
      else
        ({| sales_data := sales; inventory_data := inventory |},
         NoticeSuccess "✓ Data loaded successfully!")
  | _, _ => (session, NoticeWarning "Please upload both files.")
  end.

End process_uploaded_data.

(** [boutique_metrics.head(5)], the rows of the "Top 5 Boutiques" chart. *)
Definition top_boutiques (sales_data : list Sales.SalesRecord)
    : list Kpi.BoutiqueMetric :=
  take 5 (Kpi.calculate_boutique_metrics sales_data).

End App.

(** ** Sample tables *)

Module Samples.

(** A one-line sale at noon of day [day]. *)
Definition sale (day : Z) (boutique category tid : string) (usd : Z)
    : Sales.SalesRecord :=
  {| Sales.Date := timedelta_days day + 12 * us_per_hour;
     Sales.Boutique_ID := "BTQ-" +:+ boutique;
     Sales.Boutique_Name := boutique;
     Sales.Region := "Europe";
     Sales.SKU_Code := "SKU1000";
     Sales.Product_Category := category;
     Sales.Brand := "Cartier";
     Sales.Units_Sold := 1;
     Sales.Revenue_Local_Currency := Qc_of_Z usd;
     Sales.Revenue_USD := Qc_of_Z usd;
     Sales.Transaction_ID := tid;
     Sales.Sales_Associate_ID := "SA100";
     Sales.Customer_Type := "New";
     Sales.Payment_Method := "Cash" |}.

(** A clock stopped at noon of day [day]. *)
Definition noon (day : Z) : nat → timestamp :=
  λ _, timedelta_days day + 12 * us_per_hour.



(** Day 100: two transactions of $5,000; day 101: one of $8,000. *)
Definition two_days : list Sales.SalesRecord :=
  [sale 100 "Paris" "Watches" "A1" 5000;
   sale 100 "Paris" "Jewelry" "A2" 5000;
   sale 101 "Paris" "Watches" "B1" 8000].

(** Sales of one boutique on day 100, and 7 and 8 days before it. *)
Definition nine_days : list Sales.SalesRecord :=
  [sale 92 "Paris" "Watches" "T92" 1000;
   sale 93 "Paris" "Watches" "T93" 2000;
   sale 100 "Paris" "Jewelry" "T100" 4000].


(** A sales extract that has every required column but Date. *)
Definition undated_frame : Loader.DataFrame :=
  {| Loader.series :=
       (λ c, (c, [Loader.CStr "x"])) <$> drop 1 Loader.sales_columns |}.

(** An inventory extract with all its required columns. *)
Definition inventory_frame : Loader.DataFrame :=
  {| Loader.series :=
       (λ c, (c, [Loader.CTime 0])) <$> Loader.inventory_columns |}.

Definition sales_csv : Loader.UploadedFile :=
  {| Loader.name := "sales.csv"; Loader.content := [] |}.

Definition inventory_xlsx : Loader.UploadedFile :=
  {| Loader.name := "inventory.xlsx"; Loader.content := [] |}.

(** Readers that find [undated_frame] in every CSV file and
    [inventory_frame] in every spreadsheet, and a date parser that accepts
    any column as it is. *)
Definition read_csv : Loader.UploadedFile → string + Loader.DataFrame :=
  λ _, inr undated_frame.
Definition read_excel : Loader.UploadedFile → string + Loader.DataFrame :=
  λ _, inr inventory_frame.
Definition to_datetime : list Loader.Cell → string + list Loader.Cell :=
  λ col, inr col.

(** An inventory line of boutique BTQ001. *)
Definition item (i : nat) (stock : Z) (restocked : option timestamp)
    : Inventory.InventoryRecord :=
  {| Inventory.Date := timedelta_days 100;
     Inventory.Boutique_ID := "BTQ001";
     Inventory.SKU_Code := "SKU" +:+ pretty (1000 + i)%nat;
     Inventory.Product_Name := "Luxury Item " +:+ pretty i;
     Inventory.Category := "Watches";
     Inventory.Brand := "Rolex";
     Inventory.Current_Stock_Units := stock;
     Inventory.Min_Stock_Threshold := 5;
     Inventory.Max_Stock_Threshold := 20;
     Inventory.Unit_Cost := Qc_of_Z 2000;
     Inventory.Retail_Price := Qc_of_Z 5000;
     Inventory.Last_Restock_Date := restocked;
     Inventory.Supplier_Lead_Time_Days := 7;
     Inventory.Days_Since_Restock := None |}.

(** Seven lines, all out of stock. *)
Definition sold_out : Inventory.InventoryTable :=
  {| Inventory.columns := Loader.demo_inventory_columns;
     Inventory.rows := (λ i, item i 0 (Some (timedelta_days 90))) <$> seq 0 7 |}.

(** One line in stock, restocked ten days before day 100. *)
Definition in_stock : Inventory.InventoryTable :=
  {| Inventory.columns := Loader.demo_inventory_columns;
     Inventory.rows := [item 0 12 (Some (timedelta_days 90))] |}.

(** The same line in an extract without the Last_Restock_Date column. *)
Definition no_restock_column : Inventory.InventoryTable :=
  {| Inventory.columns := Loader.inventory_columns;
     Inventory.rows := [item 0 12 None] |}.

(** [format(q, '.1f')] on the exact value: one decimal, ties to even. *)
Definition fmt_1f (q : Qc) : string :=
  let a := Z.abs (Qnum (this q)) * 10 in
  let b := Z.pos (Qden (this q)) in
  let fl := a `div` b in
  let rem := a `mod` b in
  let n :=
    if bool_decide (b < 2 * rem ∨ (2 * rem = b ∧ Z.odd fl = true))
    then fl + 1 else fl in
  (if bool_decide (Qnum (this q) < 0 ∧ 0 < n) then "-" else "")
  +:+ pretty (n `div` 10) +:+ "." +:+ pretty (n `mod` 10).

(** A linear congruential generator standing for NumPy's. *)
Definition lcg_next (g : Z) : Z := (g * 1103515245 + 12345) `mod` 2147483648.

#[global] Instance lcg : Loader.RandomState Z := {|
  Loader.rs_seed := λ n, n `mod` 2147483648;
  Loader.rs_randint := λ low high g,
    (low + lcg_next g `mod` (high - low), lcg_next g);
  Loader.rs_choice := λ a _ g,
    (default "" (a !! Z.to_nat (lcg_next g `mod` Z.of_nat (length a))),
     lcg_next g)
|}.

(** A stand-in for [strftime('%Y%m%d')]: the day number. *)
Definition day_stamp (t : timestamp) : string := pretty (date_of t).

(** A clock stopped one microsecond after noon of day [day]. *)
Definition just_after_noon (day : Z) : nat → timestamp :=
  λ _, timedelta_days day + 12 * us_per_hour + 1.

End Samples.

(** * Properties *)

(** ** Sums, maxima and groups *)

Local Open Scope Qc_scope.

Lemma Qc_of_Z_0 : Qc_of_Z 0 = 0.
Proof. by apply Qc_is_canon. Qed.

Lemma sum_Qc_cons (x : Qc) (l : list Qc) : sum_Qc (x :: l) = x + sum_Qc l.
Proof. done. Qed.

Lemma sum_Qc_nil : sum_Qc [] = 0.
Proof. unfold sum_Qc, Qc0. simpl. apply Qc_of_Z_0. Qed.

Lemma sum_Qc_Permutation (l1 l2 : list Qc) :
  l1 ≡ₚ l2 → sum_Qc l1 = sum_Qc l2.
Proof.
  induction 1 as [|x l1 l2 _ IH|x y l|l1 l2 l3 _ IH1 _ IH2];
    rewrite ?sum_Qc_cons; [done|by rewrite IH|ring|congruence].
Qed.

Local Close Scope Qc_scope.

Lemma series_max_Some (l : list Z) (m : Z) :
  series_max l = Some m → m ∈ l ∧ ∀ x, x ∈ l → x ≤ m.
Proof.
  destruct l as [|a l]; [done|]. simpl. intros [= <-].
  induction l as [|b l [IHin IHle]]; simpl.
  - split; [left|]. intros x ->%list_elem_of_singleton. lia.
  - split.
    + destruct (Z.max_spec b (foldr Z.max a l)) as [[_ ->]|[_ ->]].
      * apply elem_of_cons in IHin as [->|Hin]; [left|]. by do 2 right.
      * right; left.
    + intros x [->|[->|Hx]%elem_of_cons]%elem_of_cons.
      * etrans; [apply IHle; left|]. lia.
      * lia.
      * etrans; [apply IHle; by right|]. lia.
Qed.

Lemma series_max_is_Some (l : list Z) : l ≠ [] → is_Some (series_max l).
Proof. destruct l; [done|]. by eexists. Qed.

Lemma fmap_ext_elem_of {A B : Type} (f g : A → B) (l : list A) :
  (∀ x, x ∈ l → f x = g x) → f <$> l = g <$> l.
Proof.
  induction l as [|a l IH]; intros Hfg; [done|].
  rewrite !fmap_cons, Hfg, IH; [done| |left]. intros; apply Hfg; by right.
Qed.

Section groupby.
Context {A K : Type} `{EqDecision K} (R : relation K) `{!RelDecision R}.
Implicit Types (key : A → K) (rows : list A).

Lemma elem_of_groupby key rows k g :
  (k, g) ∈ groupby R key rows ↔
  k ∈ key <$> rows ∧ g = filter (λ r, key r = k) rows.
Proof.
  unfold groupby. rewrite list_elem_of_fmap. split.
  - intros (k' & [= -> ->] & Hk). split; [|done].
    by rewrite merge_sort_Permutation, elem_of_remove_dups in Hk.
  - intros [Hk ->]. exists k. split; [done|].
    by rewrite merge_sort_Permutation, elem_of_remove_dups.
Qed.

Lemma groupby_length key rows :
  length (groupby R key rows) = nunique (key <$> rows).
Proof.
  unfold groupby, nunique. rewrite length_fmap.
  by rewrite merge_sort_Permutation.
Qed.

(** A value added to the one group of its key is added once overall. *)
Lemma sum_Qc_one_key (f : K → Qc) (x : Qc) (k0 : K) (ks : list K) :
  NoDup ks → k0 ∈ ks →
  sum_Qc ((λ k, if decide (k0 = k) then (x + f k)%Qc else f k) <$> ks)
  = (x + sum_Qc (f <$> ks))%Qc.
Proof.
  induction 1 as [|k ks Hk Hnd IH]; [by intros ?%not_elem_of_nil|].
  intros Hin. rewrite !fmap_cons, !sum_Qc_cons.
  destruct (decide (k0 = k)) as [->|Hne].
  - rewrite (fmap_ext_elem_of _ f ks); [ring|].
    intros k' Hk'. destruct (decide (k = k')) as [->|]; [done|done].
  - apply elem_of_cons in Hin as [?|Hin]; [done|]. rewrite IH by done. ring.
Qed.

Lemma sum_Qc_by_key key (f : A → Qc) rows (ks : list K) :
  NoDup ks → (∀ r, r ∈ rows → key r ∈ ks) →
  sum_Qc ((λ k, sum_Qc (f <$> filter (λ r, key r = k) rows)) <$> ks)
  = sum_Qc (f <$> rows).
Proof.
  intros Hnd. induction rows as [|r rows IH]; intros Hks.
  - rewrite (fmap_ext_elem_of _ (λ _, Qc0) ks) by done.
    clear. induction ks as [|k ks IH]; [done|].
    rewrite fmap_cons, sum_Qc_cons, IH, fmap_nil, sum_Qc_nil.
    unfold Qc0. rewrite Qc_of_Z_0. ring.
  - rewrite fmap_cons, sum_Qc_cons, <-IH
      by (intros; apply Hks; by right).
    rewrite <-(sum_Qc_one_key _ (f r) (key r)); [|done|apply Hks; left].
    f_equal. apply fmap_ext_elem_of. intros k Hk.
    rewrite filter_cons. by destruct (decide (key r = k)).
Qed.

(** Summing a column group by group gives the sum over the table. *)
Lemma groupby_sum key (f : A → Qc) rows :
  sum_Qc ((λ g, sum_Qc (f <$> g.2)) <$> groupby R key rows)
  = sum_Qc (f <$> rows).
Proof.
  unfold groupby. rewrite <-list_fmap_compose.
  rewrite (sum_Qc_Permutation _
    ((λ k, sum_Qc (f <$> filter (λ r, key r = k) rows))
       <$> remove_dups (key <$> rows))).
  - apply sum_Qc_by_key; [apply NoDup_remove_dups|].
    intros r Hr. apply elem_of_remove_dups. by apply list_elem_of_fmap_2.
  - apply fmap_Permutation, merge_sort_Permutation.
Qed.

End groupby.

(** ** The KPI engine *)

Section kpi.
Import Sales Kpi.














Lemma nunique_pos `{EqDecision B} (l : list B) : l ≠ [] → (0 < nunique l)%nat.
Proof.
  destruct l as [|x l]; [done|]. intros _. unfold nunique.
  assert (x ∈ remove_dups (x :: l)) as Hx by (apply elem_of_remove_dups; left).
  destruct (remove_dups (x :: l)); [by apply not_elem_of_nil in Hx|simpl; lia].
Qed.

(** The mean of the per-transaction sums is the revenue divided by the
    number of distinct transactions. *)
Lemma mean_transaction_value_eq (rows : list SalesRecord) :
  rows ≠ [] →
  mean_transaction_value rows
  = Fin (revenue rows / Qc_of_Z (Z.of_nat (transactions rows)))%Qc.
Proof.
  intros Hrows. unfold mean_transaction_value, series_mean.
  pose proof (groupby_length str_le Transaction_ID rows) as Hlen.
  pose proof (groupby_sum str_le Transaction_ID Revenue_USD rows) as Hsum.
  assert (0 < nunique (Transaction_ID <$> rows))%nat as Hpos.
  { apply nunique_pos. by destruct rows. }
  rewrite <-(length_fmap (λ g, revenue g.2)) in Hlen.
  unfold revenue, transactions in *.
  destruct ((λ g : string * list SalesRecord, sum_Qc (Revenue_USD <$> g.2))
              <$> groupby str_le Transaction_ID rows) as [|x l] eqn:Hl.
  - simpl in Hlen. lia.
  - by rewrite Hsum, Hlen.
Qed.

Lemma date_of_mono (t1 t2 : timestamp) : t1 ≤ t2 → date_of t1 ≤ date_of t2.
Proof. intros. unfold date_of. by apply Z.div_le_mono. Qed.

Lemma date_of_day_before (t : timestamp) :
  date_of (t - timedelta_days 1) = date_of t - 1.
Proof.
  unfold date_of, timedelta_days.
  replace (t - 1 * us_per_day) with (t + (-1) * us_per_day) by lia.
  rewrite Z.div_add by done. lia.
Qed.

Lemma on_date_nil (d : Z) (rows : list SalesRecord) :
  (∀ r, r ∈ rows → date_of (Date r) ≠ d) → on_date d rows = [].
Proof.
  intros Hd. unfold on_date. induction rows as [|r rows IH]; [done|].
  rewrite filter_cons. destruct (decide _) as [Heq|_].
  - by destruct (Hd r); [left|].
  - apply IH. intros; apply Hd; by right.
Qed.

(** "Today" and "yesterday" for a table whose rows all fall on day [A] or
    the day after it, seen from any wall-clock day other than [A]. *)
Lemma resolve_days_two_days (now : timestamp) (sales_data : list SalesRecord)
    (A : Z) :
  (∀ r, r ∈ sales_data →
        date_of (Date r) = A ∨ date_of (Date r) = A + 1) →
  on_date (A + 1) sales_data ≠ [] →
  date_of now ≠ A →
  resolve_days now sales_data
  = (on_date (A + 1) sales_data, on_date A sales_data).
Proof.
  intros Hdays HB Hnow. unfold resolve_days.
  destruct (decide (date_of now = A + 1)) as [Heq|Hne].
  - rewrite Heq. replace (A + 1 - 1) with A by lia.
    rewrite bool_decide_eq_false_2; [done|].
    by destruct (on_date (A + 1) sales_data).
  - rewrite (on_date_nil (date_of now)); [|intros r [?|?]%Hdays; congruence].
    rewrite bool_decide_eq_true_2 by done.
    destruct (on_date (A + 1) sales_data) as [|b bs] eqn:Hb; [done|].
    assert (b ∈ sales_data ∧ date_of (Date b) = A + 1) as [Hbin Hbd].
    { assert (b ∈ on_date (A + 1) sales_data) as Hin by (rewrite Hb; left).
      unfold on_date in Hin. by apply list_elem_of_filter in Hin as [? ?]. }
    destruct (series_max_is_Some (Date <$> sales_data)) as [latest Hmax].
    { intros Hnil. apply fmap_nil_inv in Hnil. subst.
      by apply not_elem_of_nil in Hbin. }
    rewrite Hmax. apply series_max_Some in Hmax as [Hin Hle].
    apply list_elem_of_fmap in Hin as (r & -> & Hr).
    assert (date_of (Date r) = A + 1) as Hlatest.
    { pose proof (date_of_mono (Date b) (Date r)) as Hm.
      destruct (Hdays r Hr); [|done].
      assert (Date b ≤ Date r) by by apply Hle, list_elem_of_fmap_2.
      lia. }
    rewrite date_of_day_before, Hlatest, <-Hb.
    by replace (A + 1 - 1) with A by lia.
Qed.

(** C2, as the code has it: the two-day scenario gives revenue_growth
    -20, atv 8000 and atv_change 60 for every wall-clock date other than
    day A: on day B itself, and on any day with no rows (the fallback to the
    latest date). *)
Theorem kpi_two_day_scenario (clock : nat → timestamp)
    (sales_data : list SalesRecord)
    (inventory_data : list Inventory.InventoryRecord) (A : Z) :
  (∀ r, r ∈ sales_data →
        date_of (Date r) = A ∨ date_of (Date r) = A + 1) →
  revenue (on_date A sales_data) = Qc_of_Z 10000 →
  transactions (on_date A sales_data) = 2%nat →
  revenue (on_date (A + 1) sales_data) = Qc_of_Z 8000 →
  transactions (on_date (A + 1) sales_data) = 1%nat →
  date_of (clock 0%nat) ≠ A →
  let k := calculate_kpis clock sales_data inventory_data in
  revenue_growth k = Fin (Qc_of_Z (-20)) ∧
  atv k = Fin (Qc_of_Z 8000) ∧
  atv_change k = Fin (Qc_of_Z 60).
Proof.
  intros Hdays HrevA HtxA HrevB HtxB Hnow.
  assert (on_date A sales_data ≠ []) as HA.
  { intros Hnil. by rewrite Hnil in HtxA. }
  assert (on_date (A + 1) sales_data ≠ []) as HB.
  { intros Hnil. by rewrite Hnil in HtxB. }
  unfold calculate_kpis.
  rewrite (resolve_days_two_days _ _ A) by done.
  cbv zeta. cbn [revenue_growth atv atv_change].
  rewrite !mean_transaction_value_eq by done.
  rewrite HrevA, HrevB, HtxA, HtxB.
  split_and!; vm_compute; f_equal; by apply Qc_is_canon.
Qed.

Lemma kpi_two_day_scenario_witness :
  let k := calculate_kpis (Samples.noon 250) Samples.two_days [] in
  revenue_growth k = Fin (Qc_of_Z (-20)) ∧
  atv k = Fin (Qc_of_Z 8000) ∧
  atv_change k = Fin (Qc_of_Z 60).
Proof.
  pose proof (kpi_two_day_scenario (Samples.noon 250) Samples.two_days [] 100)
    as Hk.
  apply Hk.
  - intros r Hr. repeat (apply elem_of_cons in Hr as [->|Hr]);
      [by left|by left|by right|by apply not_elem_of_nil in Hr].
  - vm_compute. by apply Qc_is_canon.
  - vm_compute. reflexivity.
  - vm_compute. by apply Qc_is_canon.
  - vm_compute. reflexivity.
  - vm_compute. intros [=].
Defined.

(** C2 as stated fails when the wall clock stands on day A: day B = 101 is
    the latest date of the table and is not the wall-clock date, yet the
    rows of day A = 100 are taken as "today" and no row as "yesterday". *)
Lemma kpi_two_day_scenario_counterexample :
  let k := calculate_kpis (Samples.noon 100) Samples.two_days [] in
  date_of <$> series_max (Date <$> Samples.two_days) = Some 101 ∧
  date_of (Samples.noon 100 0%nat) ≠ 101 ∧
  revenue_growth k = Fin Qc0 ∧
  atv k = Fin (Qc_of_Z 5000) ∧
  atv_change k = Fin Qc0 ∧
  revenue_growth k ≠ Fin (Qc_of_Z (-20)).
Proof.
  split_and!.
  - vm_compute. reflexivity.
  - vm_compute. intros [=].
  - vm_compute. reflexivity.
  - vm_compute. f_equal. by apply Qc_is_canon.
  - vm_compute. reflexivity.
  - vm_compute. intros [=].
Qed.

End kpi.

(** ** The boutique and category aggregators *)

Section aggregators.
Import Sales Kpi.

Lemma series_max_unique (l : list Z) (m : Z) :
  m ∈ l → (∀ x, x ∈ l → x ≤ m) → series_max l = Some m.
Proof.
  intros Hin Hle.
  destruct (series_max_is_Some l) as [m' Hm'].
  { intros ->. by apply not_elem_of_nil in Hin. }
  rewrite Hm'. f_equal. apply series_max_Some in Hm' as [Hin' Hle'].
  apply Z.le_antisymm; auto.
Qed.


Lemma elem_of_boutique_metrics (sales_data : list SalesRecord)
    (m : BoutiqueMetric) :
  m ∈ calculate_boutique_metrics sales_data ↔
  ∃ k, k ∈ boutique_key <$> last_7_days sales_data ∧
       m = boutique_row
             (k, filter (λ r, boutique_key r = k) (last_7_days sales_data)).
Proof.
  unfold calculate_boutique_metrics.
  rewrite merge_sort_Permutation, list_elem_of_fmap. split.
  - intros ([k g] & -> & [Hk ->]%elem_of_groupby). eauto.
  - intros (k & Hk & ->). eexists (k, _). split; [done|].
    by apply elem_of_groupby.
Qed.



(** C9: every row of the boutique table counts at least one transaction,
    so its ATV is the finite quotient Revenue / Transactions. *)
Theorem boutique_metrics_transactions_pos (sales_data : list SalesRecord) :
  Forall
    (λ m, (1 ≤ bm_Transactions m)%nat ∧
          bm_ATV m
          = Fin (bm_Revenue m / Qc_of_Z (Z.of_nat (bm_Transactions m)))%Qc)
    (calculate_boutique_metrics sales_data).
Proof.
  apply Forall_forall. intros m (k & Hk & ->)%elem_of_boutique_metrics.
  apply list_elem_of_fmap in Hk as (r & -> & Hr).
  set (g := filter (λ r', boutique_key r' = boutique_key r)
              (last_7_days sales_data)).
  assert (1 ≤ transactions g)%nat as Hpos.
  { apply nunique_pos. intros Hnil%fmap_nil_inv.
    assert (r ∈ g) as Hin by by apply list_elem_of_filter.
    rewrite Hnil in Hin. by apply not_elem_of_nil in Hin. }
  split; [done|]. unfold boutique_row, of_nat. cbn [bm_ATV bm_Revenue
    bm_Transactions fdiv snd].
  rewrite bool_decide_eq_false_2; [done|]. intros [=Hq]. lia.
Qed.







End aggregators.

(** ** Ingestion *)

Section loader.
Import Loader.

Lemma missing_cols_empty (required cols : list string) :
  (list_to_set required ∖ list_to_set cols : gset string) = ∅ ↔
  ∀ c, c ∈ required → c ∈ cols.
Proof.
  split.
  - intros Hempty c Hc. destruct (decide (c ∈ cols)) as [|Hn]; [done|].
    assert (c ∈ (list_to_set required ∖ list_to_set cols : gset string))
      as Hin.
    { apply elem_of_difference. by rewrite !elem_of_list_to_set. }
    rewrite Hempty in Hin. by apply not_elem_of_empty in Hin.
  - intros Hsub. apply set_eq. intros c.
    rewrite elem_of_difference, !elem_of_list_to_set. split.
    + intros [Hc Hn]. by destruct Hn; apply Hsub.
    + by intros ?%not_elem_of_empty.
Qed.

Lemma validate_excel_complete (df : DataFrame)
    (required_columns : list string) (file_type : string) :
  validate_excel df required_columns file_type = [] ↔
  ∀ c, c ∈ required_columns → c ∈ columns df.
Proof.
  unfold validate_excel. cbv zeta.
  rewrite <-missing_cols_empty. case_bool_decide as Hm.
  - split; [intros [=]|done].
  - split; [intros _|done].
    by destruct (decide ((list_to_set required_columns
                          ∖ list_to_set (columns df) : gset string) = ∅)).
Qed.

Lemma validate_excel_missing (df : DataFrame)
    (required_columns : list string) (file_type : string) :
  ¬ (∀ c, c ∈ required_columns → c ∈ columns df) →
  ∃ missing,
    NoDup missing ∧
    (∀ c, c ∈ missing ↔ c ∈ required_columns ∧ c ∉ columns df) ∧
    validate_excel df required_columns file_type
    = [file_type +:+ " is missing columns: " +:+ join ", " missing].
Proof.
  unfold validate_excel. cbv zeta.
  rewrite <-missing_cols_empty. intros Hm.
  rewrite bool_decide_eq_true_2 by done.
  exists (elements (list_to_set required_columns
                    ∖ list_to_set (columns df) : gset string)).
  split_and!; [apply NoDup_elements| |done].
  intros c. by rewrite elem_of_elements, elem_of_difference,
    !elem_of_list_to_set.
Qed.

(** C3: the validator returns the empty list exactly when every required
    column is a column of the table; otherwise it returns one message,
    made of the label, the text " is missing columns: " and the missing
    columns (each once, in the iteration order of the set) joined by
    ", ".  It is a total function: no input makes it fail. *)
Theorem validate_excel_spec (df : DataFrame) (required_columns : list string)
    (file_type : string) :
  (validate_excel df required_columns file_type = [] ↔
   ∀ c, c ∈ required_columns → c ∈ columns df) ∧
  (¬ (∀ c, c ∈ required_columns → c ∈ columns df) →
   ∃ missing,
     NoDup missing ∧
     (∀ c, c ∈ missing ↔ c ∈ required_columns ∧ c ∉ columns df) ∧
     validate_excel df required_columns file_type
     = [file_type +:+ " is missing columns: " +:+ join ", " missing]).
Proof.
  split; [apply validate_excel_complete|apply validate_excel_missing].
Qed.

Lemma validate_excel_spec_witness :
  ∃ missing,
    (∀ c, c ∈ missing ↔
          c ∈ sales_columns ∧ c ∉ columns Samples.undated_frame) ∧
    validate_excel Samples.undated_frame sales_columns "Sales Report"
    = ["Sales Report" +:+ " is missing columns: " +:+ join ", " missing].
Proof.
  pose proof (validate_excel_spec Samples.undated_frame sales_columns
                "Sales Report") as [_ Hmissing].
  destruct Hmissing as (missing & _ & Hin & Hmsg).
  - intros Hall. specialize (Hall "Date" ltac:(left)).
    vm_compute in Hall.
    repeat (apply elem_of_cons in Hall as [Heq|Hall]; [discriminate Heq|]).
    by apply not_elem_of_nil in Hall.
  - exists missing. exact (conj Hin Hmsg).
Defined.

Lemma get_column_missing (name : string) (df : DataFrame) :
  name ∉ columns df → get_column name df = None.
Proof.
  unfold get_column, columns. destruct df as [cols]. simpl.
  induction cols as [|c cols IH]; intros Hn; [done|].
  rewrite filter_cons. destruct (decide (c.1 = name)) as [<-|_].
  - destruct Hn. rewrite fmap_cons. left.
  - apply IH. intros Hin. apply Hn. rewrite fmap_cons. by right.
Qed.

Section load_data.
Variable read_csv : UploadedFile → string + DataFrame.
Variable read_excel : UploadedFile → string + DataFrame.
Variable to_datetime : list Cell → string + list Cell.

(** A [try] block only appends to the error list it is entered with. *)
Lemma try_load_appends (file : UploadedFile) (required : list string)
    (file_type load_error : string) (errors : list string) :
  try_load read_csv read_excel to_datetime file required file_type
    load_error errors
  = let r := try_load read_csv read_excel to_datetime file required
               file_type load_error [] in
    (r.1, errors ++ r.2).
Proof.
  unfold try_load. destruct (read_table _ _ file) as [e|data]; [done|].
  rewrite app_nil_l.
  destruct (get_column "Date" data) as [col|];
    [destruct (to_datetime col)|]; simpl; by rewrite ?app_assoc.
Qed.

(** A table that was read but has no Date column: the block records the
    validation message, then the [KeyError] as a load error, and yields no
    table. *)
Lemma try_load_missing_Date (file : UploadedFile) (data : DataFrame)
    (required : list string) (file_type load_error : string) :
  read_table read_csv read_excel file = inr data →
  "Date" ∈ required → "Date" ∉ columns data →
  ∃ vmsg,
    validate_excel data required file_type = [vmsg] ∧
    try_load read_csv read_excel to_datetime file required file_type
      load_error []
    = (None, [vmsg; load_error +:+ "'Date'"]).
Proof.
  intros Hread Hreq Hcol.
  destruct (validate_excel_missing data required file_type)
    as (missing & _ & _ & Hmsg); [by intros Hall; apply Hcol, Hall|].
  eexists. split; [done|].
  unfold try_load. by rewrite Hread, (get_column_missing _ _ Hcol), Hmsg.
Qed.

(** C10: when the table read from a file has no Date column, [load_data]
    returns no table for that file and its error list holds, in order, the
    missing-column message and the load-error message of that file; the
    table and the errors of the other file are those its own [try] block
    produces, whatever happened to the first. *)
Theorem load_data_missing_Date (sales_file inventory_file : UploadedFile)
    (data : DataFrame) :
  "Date" ∉ columns data →
  (read_table read_csv read_excel sales_file = inr data →
   ∃ vmsg,
     validate_excel data sales_columns "Sales Report" = [vmsg] ∧
     load_data read_csv read_excel to_datetime sales_file inventory_file
     = let other :=
         try_load read_csv read_excel to_datetime inventory_file
           inventory_columns "Inventory Report"
           "Error loading inventory file: " [] in
       (None, other.1,
        [vmsg; "Error loading sales file: 'Date'"] ++ other.2)) ∧
  (read_table read_csv read_excel inventory_file = inr data →
   ∃ vmsg,
     validate_excel data inventory_columns "Inventory Report" = [vmsg] ∧
     load_data read_csv read_excel to_datetime sales_file inventory_file
     = let other :=
         try_load read_csv read_excel to_datetime sales_file
           sales_columns "Sales Report" "Error loading sales file: " [] in
       (other.1, None,
        other.2 ++ [vmsg; "Error loading inventory file: 'Date'"])).
Proof.
  intros Hcol. split; intros Hread.
  - destruct (try_load_missing_Date sales_file data sales_columns
                "Sales Report" "Error loading sales file: " Hread)
      as (vmsg & Hv & Hload); [left|done|].
    exists vmsg. split; [done|]. unfold load_data. cbv zeta.
    rewrite Hload, try_load_appends.
    by destruct (try_load _ _ _ inventory_file _ _ _ []).
  - destruct (try_load_missing_Date inventory_file data inventory_columns
                "Inventory Report" "Error loading inventory file: " Hread)
      as (vmsg & Hv & Hload); [left|done|].
    exists vmsg. split; [done|]. unfold load_data. cbv zeta.
    destruct (try_load _ _ _ sales_file _ _ _ []) as [sales es].
    by rewrite try_load_appends, Hload.
Qed.

End load_data.

Lemma undated_frame_has_no_Date : "Date" ∉ columns Samples.undated_frame.
Proof.
  intros Hin. vm_compute in Hin.
  repeat (apply elem_of_cons in Hin as [Heq|Hin]; [discriminate Heq|]).
  by apply not_elem_of_nil in Hin.
Qed.

Lemma load_data_missing_Date_witness :
  (∃ vmsg,
     load_data Samples.read_csv Samples.read_excel Samples.to_datetime
       Samples.sales_csv Samples.inventory_xlsx
     = (None, Some Samples.inventory_frame,
        [vmsg; "Error loading sales file: 'Date'"])) ∧
  (∃ vmsg sales_errors,
     load_data Samples.read_csv Samples.read_excel Samples.to_datetime
       Samples.inventory_xlsx Samples.sales_csv
     = (Some Samples.inventory_frame, None,
        sales_errors ++ [vmsg; "Error loading inventory file: 'Date'"])).
Proof.
  pose proof (load_data_missing_Date Samples.read_csv Samples.read_excel
                Samples.to_datetime Samples.sales_csv Samples.inventory_xlsx
                Samples.undated_frame undated_frame_has_no_Date)
    as [Hsales _].
  pose proof (load_data_missing_Date Samples.read_csv Samples.read_excel
                Samples.to_datetime Samples.inventory_xlsx Samples.sales_csv
                Samples.undated_frame undated_frame_has_no_Date)
    as [_ Hinventory].
  split.
  - destruct Hsales as (vmsg & _ & ->); [vm_compute; reflexivity|].
    exists vmsg. vm_compute. reflexivity.
  - destruct Hinventory as (vmsg & _ & ->); [vm_compute; reflexivity|].
    exists vmsg. eexists. cbv zeta. by f_equal.
Defined.

End loader.

(** ** The alert engine *)

Section alerts.
Import Inventory Alerts.
Variable fmt_1f : Qc → string.

Lemma critical_add_warning (msgs : list string) (a : AlertLists) :
  critical (add_warning msgs a) = critical a.
Proof. done. Qed.

Lemma critical_add_critical (msgs : list string) (a : AlertLists) :
  critical (add_critical msgs a) = critical a ++ msgs.
Proof. done. Qed.

(** What the inventory rules add to the critical list: the stockout
    messages of the first five out-of-stock rows. *)
Lemma inventory_alerts_critical (restock_now : timestamp)
    (inventory_data : InventoryTable) (alerts : AlertLists) :
  critical (inventory_alerts fmt_1f restock_now inventory_data alerts).1
  = critical alerts
    ++ (stockout_message (columns inventory_data)
          <$> take 5 (stockout (rows inventory_data))).
Proof.
  unfold inventory_alerts. case_bool_decide as Hrows.
  - cbv zeta.
    set (low := if bool_decide (0 < length (low_stock (rows inventory_data)))%nat
                then _ else _).
    assert (critical low = critical alerts) as Hlow.
    { unfold low. by case_bool_decide. }
    set (out := if bool_decide (0 < length (stockout (rows inventory_data)))%nat
                then _ else _).
    assert (critical out
            = critical alerts
              ++ (stockout_message (columns inventory_data)
                    <$> take 5 (stockout (rows inventory_data)))) as Hout.
    { unfold out. case_bool_decide as Hn.
      - by rewrite critical_add_critical, Hlow.
      - destruct (stockout (rows inventory_data)); [|simpl in Hn; lia].
        by rewrite Hlow, app_nil_r. }
    case_bool_decide; [|done]. simpl.
    repeat case_bool_decide; by rewrite ?critical_add_warning.
  - destruct (rows inventory_data); [|simpl in Hrows; lia].
    by rewrite app_nil_r.
Qed.

(** C5: the critical list is what the sales rules raise, followed by the
    stockout messages, one for each of the first five rows (in table order)
    whose Current_Stock_Units is 0 and none for the others: never more
    than five.  Each message is "STOCKOUT: <Product_Name> at <Boutique_ID>";
    a frame without a Boutique_ID column gets "Unknown" for the boutique. *)
Theorem stockout_alerts_capped (clock : nat → timestamp)
    (sales_data : list Sales.SalesRecord) (inventory_data : InventoryTable)
    (thresholds : gmap string Qc) :
  let out := filter (λ r, Current_Stock_Units r = 0) (rows inventory_data) in
  let sales_only :=
    (check_alerts fmt_1f clock sales_data
       {| columns := columns inventory_data; rows := [] |} thresholds).1 in
  ∃ msgs,
    critical
      (check_alerts fmt_1f clock sales_data inventory_data thresholds).1
    = critical sales_only ++ msgs ∧
    (length msgs ≤ 5)%nat ∧
    length msgs = (length out `min` 5)%nat ∧
    ∀ i, msgs !! i =
         (λ item, "STOCKOUT: " +:+ Product_Name item +:+ " at " +:+
                  (if bool_decide ("Boutique_ID" ∈ columns inventory_data)
                   then Boutique_ID item else "Unknown"))
           <$> take 5 out !! i.
Proof.
  intros out sales_only.
  exists (stockout_message (columns inventory_data) <$> take 5 out).
  split_and!.
  - unfold sales_only, check_alerts. cbv zeta.
    by rewrite !inventory_alerts_critical, app_nil_r.
  - rewrite length_fmap, length_take. lia.
  - rewrite length_fmap, length_take. lia.
  - intros i. by rewrite list_lookup_fmap.
Qed.

(** The frame the inventory rules leave behind. *)
Lemma inventory_alerts_frame (restock_now : timestamp)
    (inventory_data : InventoryTable) (alerts : AlertLists) :
  (inventory_alerts fmt_1f restock_now inventory_data alerts).2
  = if bool_decide (rows inventory_data ≠ []
                    ∧ "Last_Restock_Date" ∈ columns inventory_data)
    then assign_Days_Since_Restock restock_now inventory_data
    else inventory_data.
Proof.
  unfold inventory_alerts.
  destruct (decide (rows inventory_data ≠ []
                    ∧ "Last_Restock_Date" ∈ columns inventory_data))
    as [[Hne Hcol]|Hn].
  - rewrite (bool_decide_eq_true_2 (rows inventory_data ≠ [] ∧ _)) by done.
    rewrite (bool_decide_eq_true_2 (0 < length (rows inventory_data))%nat)
      by (destruct (rows inventory_data); [done|simpl; lia]).
    cbv zeta.
    by rewrite (bool_decide_eq_true_2 ("Last_Restock_Date" ∈ _)) by done.
  - rewrite (bool_decide_eq_false_2 (rows inventory_data ≠ [] ∧ _)) by done.
    destruct (decide (0 < length (rows inventory_data))%nat) as [Hrows|Hrows].
    + rewrite (bool_decide_eq_true_2 (0 < length (rows inventory_data))%nat)
        by done.
      cbv zeta.
      rewrite (bool_decide_eq_false_2 ("Last_Restock_Date" ∈ _)); [done|].
      intros Hcol. apply Hn. split; [|done].
      intros Hnil. rewrite Hnil in Hrows. simpl in Hrows. lia.
    + by rewrite (bool_decide_eq_false_2
                    (0 < length (rows inventory_data))%nat) by done.
Qed.

(** C8, as the code has it: [check_alerts] has no write to the sales
    table, and it leaves an inventory frame that is empty or has no
    Last_Restock_Date column exactly as it was.  On any other inventory
    frame it writes the column Days_Since_Restock into the frame it was
    given: the name joins the columns (if it was not there already), every
    row keeps its position and all its other fields, and its
    Days_Since_Restock becomes the whole number of days from
    Last_Restock_Date to the clock reading. *)
Theorem check_alerts_inventory_frame (clock : nat → timestamp)
    (sales_data : list Sales.SalesRecord) (inventory_data : InventoryTable)
    (thresholds : gmap string Qc) :
  let after :=
    (check_alerts fmt_1f clock sales_data inventory_data thresholds).2 in
  let now := clock (if bool_decide (0 < length sales_data)%nat
                    then 2%nat else 1%nat) in
  (rows inventory_data = [] ∨ "Last_Restock_Date" ∉ columns inventory_data →
   after = inventory_data) ∧
  (rows inventory_data ≠ [] → "Last_Restock_Date" ∈ columns inventory_data →
   (∀ c, c ∈ columns after ↔
         c ∈ columns inventory_data ∨ c = "Days_Since_Restock") ∧
   (∃ extra, columns after = columns inventory_data ++ extra) ∧
   Forall2
     (λ r r',
        set_Days_Since_Restock None r' = set_Days_Since_Restock None r ∧
        Days_Since_Restock r'
        = (λ t, (now - t) `div` us_per_day) <$> Last_Restock_Date r)
     (rows inventory_data) (rows after)).
Proof.
  intros after now. unfold after, check_alerts. cbv zeta.
  rewrite inventory_alerts_frame. fold now. split.
  - intros Hskip. rewrite bool_decide_eq_false_2; [done|].
    intros [Hne Hcol]. by destruct Hskip.
  - intros Hne Hcol. rewrite bool_decide_eq_true_2 by done.
    unfold assign_Days_Since_Restock. simpl. split_and!.
    + intros c. case_bool_decide as Hd.
      * split; [by left|]. by intros [?| ->].
      * rewrite elem_of_app, list_elem_of_singleton. done.
    + case_bool_decide; [exists []; by rewrite app_nil_r|by eexists].
    + apply Forall2_fmap_r, Forall_Forall2_diag, Forall_forall.
      by intros r _.
Qed.

End alerts.

Lemma check_alerts_inventory_frame_witness :
  (Alerts.check_alerts Samples.fmt_1f (Samples.noon 100) Samples.two_days
     Samples.no_restock_column ∅).2 = Samples.no_restock_column ∧
  Forall (λ r, Inventory.Days_Since_Restock r = Some 10)
    (Inventory.rows
       (Alerts.check_alerts Samples.fmt_1f (Samples.noon 100) Samples.two_days
          Samples.in_stock ∅).2).
Proof.
  pose proof (check_alerts_inventory_frame Samples.fmt_1f (Samples.noon 100)
                Samples.two_days Samples.no_restock_column ∅) as [Hsame _].
  pose proof (check_alerts_inventory_frame Samples.fmt_1f (Samples.noon 100)
                Samples.two_days Samples.in_stock ∅) as [_ Hwritten].
  split.
  - apply Hsame. right. intros Hin. vm_compute in Hin.
    repeat (apply elem_of_cons in Hin as [Heq|Hin]; [discriminate Heq|]).
    by apply not_elem_of_nil in Hin.
  - destruct Hwritten as (_ & _ & Hrows).
    + discriminate.
    + vm_compute. do 11 right. left.
    + set (after := Inventory.rows _) in *. clearbody after.
      change (Inventory.rows Samples.in_stock)
        with [Samples.item 0 12 (Some (timedelta_days 90))] in Hrows.
      apply Forall2_cons_inv_l in Hrows as (r' & l' & [_ Hd] & Hnil & ->).
      apply Forall2_nil_inv_l in Hnil as ->.
      apply Forall_singleton. rewrite Hd. vm_compute. reflexivity.
Defined.

(** C8 as stated fails on an inventory frame that has rows and a
    Last_Restock_Date column: the call leaves the frame with one column
    more than it had, Days_Since_Restock, filled in on every row. *)
Lemma check_alerts_mutates_inventory_counterexample :
  let after :=
    (Alerts.check_alerts Samples.fmt_1f (Samples.noon 100) []
       Samples.in_stock ∅).2
  in
  after ≠ Samples.in_stock ∧
  ("Days_Since_Restock" ∉ Inventory.columns Samples.in_stock) ∧
  Inventory.columns after
  = Inventory.columns Samples.in_stock ++ ["Days_Since_Restock"] ∧
  (Inventory.Days_Since_Restock <$> Inventory.rows Samples.in_stock)
  = [None] ∧
  (Inventory.Days_Since_Restock <$> Inventory.rows after) = [Some 10].
Proof.
  split_and!.
  - vm_compute. intros [=].
  - intros Hin. vm_compute in Hin.
    repeat (apply elem_of_cons in Hin as [Heq|Hin]; [discriminate Heq|]).
    by apply not_elem_of_nil in Hin.
  - vm_compute. reflexivity.
  - vm_compute. reflexivity.
  - vm_compute. reflexivity.
Qed.

(** The cap at work: seven rows out of stock, five messages. *)
Example stockout_alerts_sold_out :
  Alerts.critical
    (Alerts.check_alerts Samples.fmt_1f (Samples.noon 100) []
       Samples.sold_out ∅).1
  = ["STOCKOUT: Luxury Item 0 at BTQ001";
     "STOCKOUT: Luxury Item 1 at BTQ001";
     "STOCKOUT: Luxury Item 2 at BTQ001";
     "STOCKOUT: Luxury Item 3 at BTQ001";
     "STOCKOUT: Luxury Item 4 at BTQ001"].
Proof. vm_compute. reflexivity. Qed.

(** ** The demo generator *)

Section generator.
Import Loader.
Context {G : Type} `{!RandomState G}.

(** The seeding makes the state the call was entered with irrelevant. *)
Lemma generate_demo_data_seeded (clock : nat → timestamp)
    (strftime_Ymd : timestamp → string) (g : G) :
  generate_demo_data clock strftime_Ymd g
  = let '(r, w) :=
      demo_tables clock strftime_Ymd {| rng := rs_seed 42; ticks := 0 |} in
    (r, rng w).
Proof. done. Qed.

Section runs.
Variable T : relation nat.

Lemma related_ret {A B : Type} (R : A → B → Prop) (x : A) (y : B) :
  R x y → related_runs (G:=G) T R (mret x) (mret y).
Proof. intros Hxy w1 w2 Hw. by split. Qed.

Lemma related_bind {A1 A2 B1 B2 : Type} (R : A1 → A2 → Prop)
    (S : B1 → B2 → Prop) (m1 : M G A1) (m2 : M G A2)
    (f1 : A1 → M G B1) (f2 : A2 → M G B2) :
  related_runs T R m1 m2 →
  (∀ x y, R x y → related_runs T S (f1 x) (f2 y)) →
  related_runs T S (m1 ≫= f1) (m2 ≫= f2).
Proof.
  intros Hm Hf w1 w2 Hw. unfold mbind, M_bind.
  destruct (Hm w1 w2 Hw) as [Hxy Hw'].
  destruct (m1 w1) as [x w1'], (m2 w2) as [y w2']. by apply Hf.
Qed.

Lemma related_for_each {A1 A2 B1 B2 : Type} (P : A1 → A2 → Prop)
    (R : B1 → B2 → Prop) (xs : list A1) (ys : list A2)
    (body1 : A1 → M G (list B1)) (body2 : A2 → M G (list B2)) :
  Forall2 P xs ys →
  (∀ x y, P x y → related_runs T (Forall2 R) (body1 x) (body2 y)) →
  related_runs T (Forall2 R) (for_each xs body1) (for_each ys body2).
Proof.
  intros Hxs Hbody. induction Hxs as [|x y xs ys Hxy _ IH]; simpl.
  - by apply related_ret.
  - eapply related_bind; [by apply Hbody|]. intros r1 r2 Hr.
    eapply related_bind; [apply IH|]. intros rs1 rs2 Hrs.
    apply related_ret. by apply Forall2_app.
Qed.

Lemma related_randint (low high : Z) :
  related_runs T eq (randint (G:=G) low high) (randint low high).
Proof.
  intros w1 w2 [Hrng Ht]. unfold randint. rewrite Hrng.
  by destruct (rs_randint low high (rng w2)).
Qed.

Lemma related_choice (a : list string) (p : option (list Qc)) :
  related_runs T eq (choice (G:=G) a p) (choice a p).
Proof.
  intros w1 w2 [Hrng Ht]. unfold choice. rewrite Hrng.
  by destruct (rs_choice a p (rng w2)).
Qed.

Variables clock1 clock2 : nat → timestamp.
Variable Rt : relation timestamp.
Hypothesis T_succ : ∀ a b, T a b → T (S a) (S b).
Hypothesis Rt_clock : ∀ a b, T a b → Rt (clock1 a) (clock2 b).
Hypothesis Rt_shift : ∀ t1 t2 d, Rt t1 t2 → Rt (t1 - d) (t2 - d).
Variable strftime_Ymd : timestamp → string.

Lemma related_now :
  related_runs T Rt (datetime_now (G:=G) clock1) (datetime_now clock2).
Proof.
  intros w1 w2 [Hrng Ht]. split; [by apply Rt_clock|].
  split; simpl; [done|by apply T_succ].
Qed.

Local Ltac step :=
  eapply related_bind;
    [first [apply related_randint | apply related_choice | apply related_now]
    |intros ? ? ?; simplify_eq].

Lemma related_sales_record (d1 d2 : timestamp) (boutique region : string)
    (i : nat) :
  Rt d1 d2 →
  related_runs T (related_sales Rt)
    (sales_record strftime_Ymd d1 boutique region i)
    (sales_record strftime_Ymd d2 boutique region i).
Proof.
  intros Hd. unfold sales_record. do 9 step.
  apply related_ret. split_and!; [done| |done]. simpl. by intros ->.
Qed.

Lemma related_inventory_record (boutique : string) (i : nat) :
  related_runs T (related_inventory Rt)
    (inventory_record clock1 boutique i)
    (inventory_record clock2 boutique i).
Proof.
  unfold inventory_record. do 9 step.
  apply related_ret. split_and!; [done| |done]. simpl.
  constructor. by apply Rt_shift.
Qed.

Lemma related_demo_sales (dates1 dates2 : list timestamp) :
  Forall2 Rt dates1 dates2 →
  related_runs T (Forall2 (related_sales Rt))
    (demo_sales strftime_Ymd dates1) (demo_sales strftime_Ymd dates2).
Proof.
  intros Hdates. unfold demo_sales.
  eapply related_for_each; [done|]. intros d1 d2 Hd.
  eapply (related_for_each eq); [by apply Forall_Forall2_diag, Forall_true|].
  intros br ? <-. step.
  eapply (related_for_each eq); [by apply Forall_Forall2_diag, Forall_true|].
  intros i ? <-.
  eapply related_bind; [by apply related_sales_record|]. intros r1 r2 Hr.
  apply related_ret. by constructor.
Qed.

Lemma related_demo_inventory :
  related_runs T (Forall2 (related_inventory Rt))
    (demo_inventory clock1) (demo_inventory clock2).
Proof.
  unfold demo_inventory.
  eapply (related_for_each eq); [by apply Forall_Forall2_diag, Forall_true|].
  intros boutique ? <-.
  eapply (related_for_each eq); [by apply Forall_Forall2_diag, Forall_true|].
  intros i ? <-.
  eapply related_bind; [by apply related_inventory_record|]. intros r1 r2 Hr.
  apply related_ret. by constructor.
Qed.

Lemma related_date_range (e1 e2 : timestamp) (periods : nat) :
  Rt e1 e2 → Forall2 Rt (date_range e1 periods) (date_range e2 periods).
Proof.
  intros He. unfold date_range. apply Forall2_fmap, Forall_Forall2_diag,
    Forall_forall. intros k _. by apply Rt_shift.
Qed.

Lemma related_demo_tables :
  related_runs T
    (λ r1 r2 : list Sales.SalesRecord * Inventory.InventoryTable,
       Forall2 (related_sales Rt) r1.1 r2.1 ∧
       Forall2 (related_inventory Rt)
         (Inventory.rows r1.2) (Inventory.rows r2.2) ∧
       Inventory.columns r1.2 = Inventory.columns r2.2)
    (demo_tables clock1 strftime_Ymd) (demo_tables clock2 strftime_Ymd).
Proof.
  unfold demo_tables.
  eapply related_bind; [apply related_now|]. intros e1 e2 He.
  eapply related_bind; [by apply related_demo_sales, related_date_range|].
  intros s1 s2 Hs.
  eapply related_bind; [apply related_demo_inventory|]. intros i1 i2 Hi.
  by apply related_ret.
Qed.

(** Two calls, entered with any two random states: the seed makes the
    worlds related, and they stay so. *)
Lemma related_generate_demo_data (g1 g2 : G) :
  T 0%nat 0%nat →
  let r1 := (generate_demo_data clock1 strftime_Ymd g1).1 in
  let r2 := (generate_demo_data clock2 strftime_Ymd g2).1 in
  Forall2 (related_sales Rt) r1.1 r2.1 ∧
  Forall2 (related_inventory Rt) (Inventory.rows r1.2) (Inventory.rows r2.2) ∧
  Inventory.columns r1.2 = Inventory.columns r2.2.
Proof.
  intros HT0. rewrite !generate_demo_data_seeded.
  destruct (related_demo_tables {| rng := rs_seed 42; ticks := 0 |}
              {| rng := rs_seed 42; ticks := 0 |} (conj eq_refl HT0))
    as [Hres _].
  by destruct (demo_tables clock1 _ _) as [r1 w1],
              (demo_tables clock2 _ _) as [r2 w2].
Qed.

End runs.

Lemma Forall2_fmap_eq {A B : Type} (f : A → B) (R : relation A)
    (l1 l2 : list A) :
  (∀ x y, R x y → f x = f y) → Forall2 R l1 l2 → f <$> l1 = f <$> l2.
Proof.
  intros HR. induction 1 as [|x y l1 l2 Hxy _ IH]; [done|].
  by rewrite !fmap_cons, IH, (HR x y Hxy).
Qed.

Lemma related_sales_eq (r1 r2 : Sales.SalesRecord) :
  related_sales eq r1 r2 → r1 = r2.
Proof.
  destruct r1, r2. unfold related_sales, sales_drawn. simpl.
  intros (-> & Hid & [=]). rewrite Hid by done. by subst.
Qed.

Lemma related_inventory_eq (r1 r2 : Inventory.InventoryRecord) :
  related_inventory eq r1 r2 → r1 = r2.
Proof.
  destruct r1, r2. unfold related_inventory, inventory_drawn. simpl.
  intros (-> & Hrestock & [=]). subst. f_equal.
  by destruct Hrestock; subst.
Qed.

(** C7, as the code has it: the tables are a function of the seed and of
    the clock.  The state of the random generator before the call plays no
    part: two calls that read the same clock values return the same
    tables, and two calls at any two times return tables that agree on
    the columns and, row by row, on every field but the ones computed from
    [datetime.now()] (Date and Transaction_ID of a sale, Date and
    Last_Restock_Date of an inventory line). *)
Theorem generate_demo_data_reproducible (strftime_Ymd : timestamp → string)
    (clock1 clock2 : nat → timestamp) (g1 g2 : G) :
  let r1 := (generate_demo_data clock1 strftime_Ymd g1).1 in
  let r2 := (generate_demo_data clock2 strftime_Ymd g2).1 in
  ((∀ k, clock1 k = clock2 k) → r1 = r2) ∧
  sales_drawn <$> r1.1 = sales_drawn <$> r2.1 ∧
  inventory_drawn <$> Inventory.rows r1.2
  = inventory_drawn <$> Inventory.rows r2.2 ∧
  Inventory.columns r1.2 = Inventory.columns r2.2.
Proof.
  intros r1 r2. split.
  - intros Hclock.
    destruct (related_generate_demo_data eq clock1 clock2 eq) with
      (strftime_Ymd := strftime_Ymd) (g1 := g1) (g2 := g2)
      as (Hsales & Hinv & Hcols);
      [by intros ?? ->|by intros ?? ->|by intros ??? ->|done|].
    fold r1 r2 in Hsales, Hinv, Hcols.
    destruct r1 as [s1 [c1 i1]], r2 as [s2 [c2 i2]]. simpl in *.
    f_equal; [|f_equal; [done|]].
    + rewrite <-(list_fmap_id s1), <-(list_fmap_id s2).
      by apply (Forall2_fmap_eq id _ _ _ related_sales_eq).
    + rewrite <-(list_fmap_id i1), <-(list_fmap_id i2).
      by apply (Forall2_fmap_eq id _ _ _ related_inventory_eq).
  - destruct (related_generate_demo_data (λ _ _, True) clock1 clock2
                (λ _ _, True)) with
      (strftime_Ymd := strftime_Ymd) (g1 := g1) (g2 := g2)
      as (Hsales & Hinv & Hcols); [done..|].
    fold r1 r2 in Hsales, Hinv, Hcols. split_and!; [| |done].
    + eapply Forall2_fmap_eq; [|done]. by intros x y (_ & _ & ?).
    + eapply Forall2_fmap_eq; [|done]. by intros x y (_ & _ & ?).
Qed.

End generator.

Lemma generate_demo_data_reproducible_witness :
  (Loader.generate_demo_data (Samples.noon 100) Samples.day_stamp 1).1
  = (Loader.generate_demo_data (Samples.noon 100) Samples.day_stamp 2).1.
Proof.
  pose proof (generate_demo_data_reproducible Samples.day_stamp
                (Samples.noon 100) (Samples.noon 100) 1 2) as [Hsame _].
  apply Hsame. intros k. reflexivity.
Defined.

(** C7 as stated fails: the same call made a microsecond later returns
    other tables, because the dates of the rows are read from the clock. *)
Lemma generate_demo_data_clock_counterexample :
  let first_call :=
    (Loader.generate_demo_data (Samples.noon 100) Samples.day_stamp 7).1 in
  let second_call :=
    (Loader.generate_demo_data (Samples.just_after_noon 100)
       Samples.day_stamp 7).1 in
  (Sales.Date <$> head first_call.1) = Some 6177600000000 ∧
  (Sales.Date <$> head second_call.1) = Some 6177600000001 ∧
  first_call ≠ second_call.
Proof.
  intros first_call second_call.
  assert ((Sales.Date <$> head first_call.1) = Some 6177600000000) as H1
    by (vm_compute; reflexivity).
  assert ((Sales.Date <$> head second_call.1) = Some 6177600000001) as H2
    by (vm_compute; reflexivity).
  split_and!; [done|done|].
  intros Heq. rewrite Heq, H2 in H1. discriminate H1.
Qed.

(** ** The KPI engine: day resolution, bounds, row order *)

Section kpi_more.
Import Sales Kpi.

Lemma on_date_elem (d : Z) (rows : list SalesRecord) (r : SalesRecord) :
  r ∈ on_date d rows ↔ date_of (Date r) = d ∧ r ∈ rows.
Proof. unfold on_date. by rewrite list_elem_of_filter. Qed.

Lemma resolve_days_shape (now : timestamp) (sales_data : list SalesRecord) :
  sales_data ≠ [] →
  ∃ d, resolve_days now sales_data
       = (on_date d sales_data, on_date (d - 1) sales_data) ∧
       on_date d sales_data ≠ [] ∧
       (d = date_of now ∨
        on_date (date_of now) sales_data = [] ∧
        date_of <$> series_max (Date <$> sales_data) = Some d).
Proof.
  intros Hne. unfold resolve_days. cbv zeta. case_bool_decide as Hlen.
  - destruct (series_max_is_Some (Date <$> sales_data)) as [latest Hmax].
    { by intros ?%fmap_nil_inv. }
    rewrite Hmax. exists (date_of latest).
    rewrite date_of_day_before. split_and!; [done| |].
    + apply series_max_Some in Hmax as [(r & -> & Hr)%list_elem_of_fmap _].
      intros Hnil. assert (r ∈ on_date (date_of (Date r)) sales_data) as Hin
        by by apply on_date_elem.
      rewrite Hnil in Hin. by apply not_elem_of_nil in Hin.
    + right. split; [|done]. by destruct (on_date (date_of now) sales_data).
  - exists (date_of now). split_and!; [done| |by left].
    intros Hnil. by rewrite Hnil in Hlen.
Qed.

(** Which rows count as today: on a non-empty table the two day slices
    are the rows of one calendar day [d] and of the day before it, the
    slice of [d] has rows, and [d] is the wall-clock day or, when that day
    has no row, the day of the latest [Date]. *)
Theorem kpi_today_resolution (now : timestamp)
    (sales_data : list SalesRecord) :
  sales_data ≠ [] →
  ∃ d, (resolve_days now sales_data).1 = on_date d sales_data ∧
       (resolve_days now sales_data).2 = on_date (d - 1) sales_data ∧
       on_date d sales_data ≠ [] ∧
       (d = date_of now ∨
        on_date (date_of now) sales_data = [] ∧
        date_of <$> series_max (Date <$> sales_data) = Some d).
Proof.
  intros Hne. destruct (resolve_days_shape now sales_data Hne)
    as (d & -> & Hd & Hcase). by exists d.
Qed.

Lemma mean_transaction_value_nil : mean_transaction_value [] = NaN.
Proof. done. Qed.

Lemma Qc_of_nat_nonzero (n : nat) :
  (0 < n)%nat → Qc_of_Z (Z.of_nat n) ≠ Qc0.
Proof. intros Hn [=Hq]. lia. Qed.


Lemma Qc_of_Z_mul (a b : Z) : Qc_of_Z (a * b) = (Qc_of_Z a * Qc_of_Z b)%Qc.
Proof.
  apply Qc_is_canon. simpl. rewrite Qred_correct.
  unfold Qeq, inject_Z. simpl. lia.
Qed.

(** On a non-empty table the conversion rate is the number of distinct
    transactions of today over the number of distinct boutiques of today:
    the factors 100 of the visitor estimate and of the percentage cancel;
    both counts are at least 1. *)
Theorem kpi_conversion_rate_ratio (clock : nat → timestamp)
    (sales_data : list SalesRecord)
    (inventory_data : list Inventory.InventoryRecord) :
  sales_data ≠ [] →
  let k := calculate_kpis clock sales_data inventory_data in
  let today_data := (resolve_days (clock 0%nat) sales_data).1 in
  let boutiques := nunique (Boutique_ID <$> today_data) in
  (1 ≤ boutiques)%nat ∧ (1 ≤ transactions today_data)%nat ∧
  conversion_rate k
  = Fin (Qc_of_Z (Z.of_nat (transactions today_data))
         / Qc_of_Z (Z.of_nat boutiques))%Qc.
Proof.
  intros Hne. unfold calculate_kpis.
  destruct (resolve_days_shape (clock 0%nat) sales_data Hne)
    as (d & -> & Hd & _).
  cbn [fst conversion_rate].
  set (today := on_date d sales_data) in *.
  assert (0 < nunique (Boutique_ID <$> today))%nat as HB.
  { apply nunique_pos. by intros ?%fmap_nil_inv. }
  assert (0 < transactions today)%nat as HT.
  { apply nunique_pos. by intros ?%fmap_nil_inv. }
  split_and!; [lia|lia|].
  unfold conversion, visitors.
  rewrite bool_decide_eq_true_2 by lia. unfold of_nat. simpl.
  rewrite bool_decide_eq_false_2 by (apply Qc_of_nat_nonzero; lia).
  cbn [fmul]. f_equal. rewrite Nat2Z.inj_mul, Qc_of_Z_mul.
  assert (Qc_of_Z (Z.of_nat (nunique (Boutique_ID <$> today))) ≠ 0%Qc) as Hn.
  { rewrite <-Qc_of_Z_0. by apply Qc_of_nat_nonzero. }
  change (Qc_of_Z (Z.of_nat 100)) with Qc100.
  assert (Qc100 ≠ 0%Qc) as H100 by done.
  by field.
Qed.


Lemma length_filter_impl {A : Type} (P Q : A → Prop)
    `{!∀ x, Decision (P x)} `{!∀ x, Decision (Q x)} (l : list A) :
  (∀ x, x ∈ l → P x → Q x) →
  (length (filter P l) ≤ length (filter Q l))%nat.
Proof.
  induction l as [|x l IH]; intros HPQ; [done|].
  rewrite !filter_cons.
  assert (length (filter P l) ≤ length (filter Q l))%nat as Hl
    by (apply IH; intros; apply HPQ; [by right|done]).
  destruct (decide (P x)) as [HP|_], (decide (Q x)) as [_|HQ]; simpl;
    [lia| |lia|lia].
  destruct HQ. apply HPQ; [left|done].
Qed.

(** With non-negative minimum thresholds every stocked-out line is also a
    low-stock line, so [stockout_risk] never exceeds [low_stock_items]. *)
Theorem kpi_stockout_within_low_stock (clock : nat → timestamp)
    (sales_data : list SalesRecord)
    (inventory_data : list Inventory.InventoryRecord) :
  (∀ r, r ∈ inventory_data → 0 ≤ Inventory.Min_Stock_Threshold r) →
  let k := calculate_kpis clock sales_data inventory_data in
  (stockout_risk k ≤ low_stock_items k)%nat.
Proof.
  intros Hmin. unfold calculate_kpis.
  destruct (resolve_days (clock 0%nat) sales_data) as [today yesterday].
  cbn [stockout_risk low_stock_items].
  apply length_filter_impl. intros r Hr Hzero.
  specialize (Hmin r Hr). lia.
Qed.

Local Open Scope Qc_scope.

Lemma Qc0_eq : Qc0 = 0.
Proof. apply Qc_of_Z_0. Qed.





Local Close Scope Qc_scope.

Lemma nunique_Permutation `{EqDecision B} (l1 l2 : list B) :
  l1 ≡ₚ l2 → nunique l1 = nunique l2.
Proof.
  intros Hperm. unfold nunique. apply Permutation_length.
  apply NoDup_Permutation; [apply NoDup_remove_dups..|].
  intros x. by rewrite !elem_of_remove_dups, Hperm.
Qed.

Lemma sum_Z_Permutation (l1 l2 : list Z) : l1 ≡ₚ l2 → sum_Z l1 = sum_Z l2.
Proof.
  unfold sum_Z.
  induction 1 as [|x l1 l2 _ IH|x y l|l1 l2 l3 _ IH1 _ IH2]; simpl; lia.
Qed.

Lemma series_max_Permutation (l1 l2 : list Z) :
  l1 ≡ₚ l2 → series_max l1 = series_max l2.
Proof.
  intros Hperm. destruct (series_max l1) as [m|] eqn:Hmax.
  - apply series_max_Some in Hmax as [Hin Hle]. symmetry.
    apply series_max_unique; [by rewrite <-Hperm|].
    intros x Hx. apply Hle. by rewrite Hperm.
  - destruct l1; [|done]. by apply Permutation_nil_l in Hperm as <-.
Qed.

Lemma series_mean_Permutation (l1 l2 : list Qc) :
  l1 ≡ₚ l2 → series_mean l1 = series_mean l2.
Proof.
  intros Hperm. unfold series_mean.
  rewrite (sum_Qc_Permutation _ _ Hperm), (Permutation_length Hperm).
  destruct l1, l2; try done.
  - by apply Permutation_nil_cons in Hperm.
  - symmetry in Hperm. by apply Permutation_nil_cons in Hperm.
Qed.

Lemma revenue_Permutation (rows1 rows2 : list SalesRecord) :
  rows1 ≡ₚ rows2 → revenue rows1 = revenue rows2.
Proof.
  intros Hperm. unfold revenue. by apply sum_Qc_Permutation, fmap_Permutation.
Qed.

Lemma transactions_Permutation (rows1 rows2 : list SalesRecord) :
  rows1 ≡ₚ rows2 → transactions rows1 = transactions rows2.
Proof.
  intros Hperm. unfold transactions.
  by apply nunique_Permutation, fmap_Permutation.
Qed.

Lemma on_date_Permutation (d : Z) (rows1 rows2 : list SalesRecord) :
  rows1 ≡ₚ rows2 → on_date d rows1 ≡ₚ on_date d rows2.
Proof. intros Hperm. unfold on_date. by apply filter_Permutation. Qed.

Lemma mean_transaction_value_Permutation (rows1 rows2 : list SalesRecord) :
  rows1 ≡ₚ rows2 →
  mean_transaction_value rows1 = mean_transaction_value rows2.
Proof.
  intros Hperm. destruct (decide (rows1 = [])) as [->|Hne].
  - by apply Permutation_nil_l in Hperm as <-.
  - rewrite !mean_transaction_value_eq;
      [|by intros ->; apply Hne, Permutation_nil_r|done].
    by rewrite (revenue_Permutation _ _ Hperm),
      (transactions_Permutation _ _ Hperm).
Qed.

Lemma conversion_Permutation (rows1 rows2 : list SalesRecord) :
  rows1 ≡ₚ rows2 → conversion rows1 = conversion rows2.
Proof.
  intros Hperm. unfold conversion, visitors.
  by rewrite (transactions_Permutation _ _ Hperm),
    (nunique_Permutation _ _ (fmap_Permutation Boutique_ID _ _ Hperm)).
Qed.

Lemma resolve_days_Permutation (now : timestamp)
    (sales1 sales2 : list SalesRecord) :
  sales1 ≡ₚ sales2 →
  (resolve_days now sales1).1 ≡ₚ (resolve_days now sales2).1 ∧
  (resolve_days now sales1).2 ≡ₚ (resolve_days now sales2).2.
Proof.
  intros Hperm. unfold resolve_days. cbv zeta.
  rewrite (Permutation_length (on_date_Permutation (date_of now) _ _ Hperm)).
  rewrite (series_max_Permutation _ _ (fmap_Permutation Date _ _ Hperm)).
  case_bool_decide.
  - destruct (series_max (Date <$> sales2)); [|done].
    split; by apply on_date_Permutation.
  - split; by apply on_date_Permutation.
Qed.

(** The KPIs do not depend on the order of the rows of either table (in
    the exact arithmetic of the model). *)
Theorem kpi_row_order_irrelevant (clock : nat → timestamp)
    (sales1 sales2 : list SalesRecord)
    (inventory1 inventory2 : list Inventory.InventoryRecord) :
  sales1 ≡ₚ sales2 → inventory1 ≡ₚ inventory2 →
  calculate_kpis clock sales1 inventory1
  = calculate_kpis clock sales2 inventory2.
Proof.
  intros Hsales Hinv. unfold calculate_kpis.
  destruct (resolve_days_Permutation (clock 0%nat) _ _ Hsales)
    as [Htoday Hyesterday].
  destruct (resolve_days (clock 0%nat) sales1) as [today1 yesterday1],
           (resolve_days (clock 0%nat) sales2) as [today2 yesterday2].
  simpl in Htoday, Hyesterday.
  rewrite (revenue_Permutation _ _ Htoday),
    (revenue_Permutation _ _ Hyesterday),
    (mean_transaction_value_Permutation _ _ Htoday),
    (mean_transaction_value_Permutation _ _ Hyesterday),
    (conversion_Permutation _ _ Htoday),
    (conversion_Permutation _ _ Hyesterday).
  assert (Inventory.stock_value inventory1 = Inventory.stock_value inventory2)
    as ->.
  { unfold Inventory.stock_value.
    by apply sum_Qc_Permutation, fmap_Permutation. }
  assert (series_mean (Inventory.Unit_Cost <$> inventory1)
          = series_mean (Inventory.Unit_Cost <$> inventory2)) as ->
    by by apply series_mean_Permutation, fmap_Permutation.
  assert (units (filter (λ r, clock 1%nat - timedelta_days 30 ≤ Date r)
                   sales1)
          = units (filter (λ r, clock 1%nat - timedelta_days 30 ≤ Date r)
                     sales2)) as ->.
  { unfold units.
    by apply sum_Z_Permutation, fmap_Permutation, filter_Permutation. }
  assert (length (Inventory.low_stock inventory1)
          = length (Inventory.low_stock inventory2)) as ->
    by by apply Permutation_length, filter_Permutation.
  assert (length (Inventory.stockout inventory1)
          = length (Inventory.stockout inventory2)) as ->
    by by apply Permutation_length, filter_Permutation.
  done.
Qed.

End kpi_more.

Lemma kpi_today_resolution_witness :
  Samples.two_days ≠ [] ∧
  ∃ d, (Kpi.resolve_days (Samples.noon 150 0%nat) Samples.two_days).1
       = Sales.on_date d Samples.two_days ∧
       Sales.on_date d Samples.two_days ≠ [].
Proof.
  assert (Samples.two_days ≠ []) as Hne by done.
  split; [done|].
  destruct (kpi_today_resolution (Samples.noon 150 0%nat) Samples.two_days
              Hne) as (d & Htoday & _ & Hrows & _).
  by exists d.
Defined.

Lemma kpi_conversion_rate_ratio_witness :
  Samples.two_days ≠ [] ∧
  (1 ≤ Sales.transactions
         (Kpi.resolve_days (Samples.noon 101 0%nat) Samples.two_days).1)%nat.
Proof.
  assert (Samples.two_days ≠ []) as Hne by done.
  split; [done|].
  pose proof (kpi_conversion_rate_ratio (Samples.noon 101) Samples.two_days
                [] Hne) as (_ & Htransactions & _).
  exact Htransactions.
Defined.

Lemma kpi_stockout_within_low_stock_witness :
  let k :=
    Kpi.calculate_kpis (Samples.noon 100) []
      (Inventory.rows Samples.sold_out) in
  (Kpi.stockout_risk k ≤ Kpi.low_stock_items k)%nat.
Proof.
  apply (kpi_stockout_within_low_stock (Samples.noon 100) []
           (Inventory.rows Samples.sold_out)).
  intros r Hr. unfold Samples.sold_out in Hr. cbn [Inventory.rows] in Hr.
  apply list_elem_of_fmap in Hr as (i & -> & _). done.
Defined.


Lemma kpi_row_order_irrelevant_witness :
  Kpi.calculate_kpis (Samples.noon 101) Samples.two_days
    (Inventory.rows Samples.sold_out)
  = Kpi.calculate_kpis (Samples.noon 101) (rev Samples.two_days)
      (rev (Inventory.rows Samples.sold_out)).
Proof.
  apply kpi_row_order_irrelevant; apply Permutation_rev.
Defined.

(** ** The aggregators: ranking and totals *)

Section aggregators_more.
Import Sales Kpi.

#[local] Instance revenue_desc_transitive {A} (rev : A → Qc) :
  Transitive (revenue_desc rev).
Proof. intros a b c Hab Hbc. unfold revenue_desc in *. by etrans. Qed.

#[local] Instance revenue_desc_total {A} (rev : A → Qc) :
  Total (revenue_desc rev).
Proof.
  intros a b. unfold revenue_desc.
  destruct (Qclt_le_dec (rev a) (rev b)) as [Hlt|Hle]; [right|by left].
  by apply Qclt_le_weak.
Qed.

Lemma groupby_keys {A K : Type} `{EqDecision K} (R : relation K)
    `{!RelDecision R} (key : A → K) (rows : list A) :
  (groupby R key rows).*1 ≡ₚ remove_dups (key <$> rows).
Proof.
  unfold groupby. rewrite <-list_fmap_compose.
  rewrite (fmap_ext_elem_of _ id) by done.
  rewrite list_fmap_id. apply merge_sort_Permutation.
Qed.

Lemma sum_Z_one_key {K : Type} `{EqDecision K} (f : K → Z) (x : Z) (k0 : K)
    (ks : list K) :
  NoDup ks → k0 ∈ ks →
  sum_Z ((λ k, if decide (k0 = k) then x + f k else f k) <$> ks)
  = x + sum_Z (f <$> ks).
Proof.
  unfold sum_Z. induction 1 as [|k ks Hk Hnd IH]; [by intros ?%not_elem_of_nil|].
  intros Hin. rewrite !fmap_cons. simpl.
  destruct (decide (k0 = k)) as [->|Hne].
  - rewrite (fmap_ext_elem_of _ f ks); [lia|].
    intros k' Hk'. by destruct (decide (k = k')) as [->|].
  - apply elem_of_cons in Hin as [?|Hin]; [done|]. rewrite IH by done. lia.
Qed.

Lemma sum_Z_by_key {A K : Type} `{EqDecision K} (key : A → K) (f : A → Z)
    (rows : list A) (ks : list K) :
  NoDup ks → (∀ r, r ∈ rows → key r ∈ ks) →
  sum_Z ((λ k, sum_Z (f <$> filter (λ r, key r = k) rows)) <$> ks)
  = sum_Z (f <$> rows).
Proof.
  intros Hnd. induction rows as [|r rows IH]; intros Hks.
  - rewrite (fmap_ext_elem_of _ (λ _, 0) ks) by done.
    clear. induction ks as [|k ks IH]; [done|].
    rewrite fmap_cons. unfold sum_Z in *. simpl. by rewrite IH.
  - rewrite fmap_cons. unfold sum_Z at 3. simpl. fold (sum_Z (f <$> rows)).
    rewrite <-IH by (intros; apply Hks; by right).
    rewrite <-(sum_Z_one_key _ (f r) (key r)); [|done|apply Hks; left].
    f_equal. apply fmap_ext_elem_of. intros k Hk.
    rewrite filter_cons. by destruct (decide (key r = k)).
Qed.

Lemma groupby_sum_Z {A K : Type} `{EqDecision K} (R : relation K)
    `{!RelDecision R} (key : A → K) (f : A → Z) (rows : list A) :
  sum_Z ((λ g, sum_Z (f <$> g.2)) <$> groupby R key rows)
  = sum_Z (f <$> rows).
Proof.
  unfold groupby. rewrite <-list_fmap_compose.
  rewrite (sum_Z_Permutation _
    ((λ k, sum_Z (f <$> filter (λ r, key r = k) rows))
       <$> remove_dups (key <$> rows))).
  - apply sum_Z_by_key; [apply NoDup_remove_dups|].
    intros r Hr. apply elem_of_remove_dups. by apply list_elem_of_fmap_2.
  - apply fmap_Permutation, merge_sort_Permutation.
Qed.

Lemma boutique_metrics_unsorted (sales_data : list SalesRecord) :
  calculate_boutique_metrics sales_data
  ≡ₚ boutique_row
       <$> groupby pair_le boutique_key (last_7_days sales_data).
Proof. apply merge_sort_Permutation. Qed.

(** The boutique table is ranked by revenue, highest first, and holds each
    (boutique, region) pair once; so every row of the top-five chart earns
    at least as much as every row left out of it. *)
Theorem boutique_metrics_ranked (sales_data : list SalesRecord) :
  let result := calculate_boutique_metrics sales_data in
  StronglySorted (λ a b, (bm_Revenue b ≤ bm_Revenue a)%Qc) result ∧
  NoDup ((λ m, (bm_Boutique_Name m, bm_Region m)) <$> result) ∧
  Forall
    (λ top, Forall (λ m, (bm_Revenue m ≤ bm_Revenue top)%Qc) (drop 5 result))
    (App.top_boutiques sales_data).
Proof.
  intros result.
  assert (StronglySorted (revenue_desc bm_Revenue) result) as Hsorted
    by apply (StronglySorted_merge_sort _).
  split_and!; [done| |].
  - unfold result. rewrite boutique_metrics_unsorted, <-list_fmap_compose.
    rewrite (fmap_ext_elem_of _ fst)
      by (intros [[? ?] ?] _; done).
    rewrite groupby_keys. apply NoDup_remove_dups.
  - unfold App.top_boutiques. fold result.
    rewrite <-(take_drop 5 result) in Hsorted.
    apply StronglySorted_app in Hsorted as (Hle & _ & _).
    apply Forall_forall. intros top Htop.
    apply Forall_forall. intros m Hm. by apply Hle.
Qed.

(** The boutique table partitions the last seven days: its revenues and
    units add up to those of the window, and it is empty only for an empty
    sales table. *)
Theorem boutique_metrics_totals (sales_data : list SalesRecord) :
  let result := calculate_boutique_metrics sales_data in
  sum_Qc (bm_Revenue <$> result) = revenue (last_7_days sales_data) ∧
  sum_Z (bm_Units_Sold <$> result) = units (last_7_days sales_data) ∧
  (result = [] ↔ sales_data = []).
Proof.
  intros result. split_and!.
  - unfold result.
    rewrite (sum_Qc_Permutation _ _
               (fmap_Permutation bm_Revenue _ _
                  (boutique_metrics_unsorted sales_data))).
    rewrite <-list_fmap_compose.
    apply (groupby_sum pair_le boutique_key Revenue_USD).
  - unfold result.
    rewrite (sum_Z_Permutation _ _
               (fmap_Permutation bm_Units_Sold _ _
                  (boutique_metrics_unsorted sales_data))).
    rewrite <-list_fmap_compose.
    apply (groupby_sum_Z pair_le boutique_key Units_Sold).
  - unfold result. split.
    + intros Hnil. destruct sales_data as [|r0 sales_data]; [done|].
      destruct (series_max_is_Some (Date <$> r0 :: sales_data))
        as [latest Hmax]; [done|].
      pose proof Hmax as [(r & Hr & Hin)%list_elem_of_fmap _]%series_max_Some.
      assert (boutique_row
                (boutique_key r,
                 filter (λ r', boutique_key r' = boutique_key r)
                   (last_7_days (r0 :: sales_data)))
              ∈ calculate_boutique_metrics (r0 :: sales_data)) as Hm.
      { apply elem_of_boutique_metrics. eexists. split; [|done].
        apply list_elem_of_fmap_2. unfold last_7_days. rewrite Hmax.
        apply list_elem_of_filter. split; [|done].
        unfold timedelta_days, us_per_day, us_per_hour. lia. }
      rewrite Hnil in Hm. by apply not_elem_of_nil in Hm.
    + by intros ->.
Qed.

Lemma category_unsorted (sales_data : list SalesRecord) :
  calculate_category_performance sales_data
  ≡ₚ (λ g, {| cm_Category := g.1;
              cm_Revenue := revenue g.2;
              cm_Units_Sold := units g.2;
              cm_Transactions := transactions g.2;
              cm_Revenue_Share :=
                fmul (fdiv (Fin (revenue g.2))
                        (Fin (sum_Qc ((λ g, revenue g.2)
                                        <$> category_groups sales_data))))
                     (Fin Qc100) |})
       <$> category_groups sales_data.
Proof. apply merge_sort_Permutation. Qed.

(** The category table has one row per category of the sales table, ranked
    by revenue, highest first; its revenues and units add up to those of
    the whole table. *)
Theorem category_performance_table (sales_data : list SalesRecord) :
  let result := calculate_category_performance sales_data in
  cm_Category <$> result ≡ₚ remove_dups (Product_Category <$> sales_data) ∧
  StronglySorted (λ a b, (cm_Revenue b ≤ cm_Revenue a)%Qc) result ∧
  sum_Qc (cm_Revenue <$> result) = revenue sales_data ∧
  sum_Z (cm_Units_Sold <$> result) = units sales_data.
Proof.
  intros result. split_and!.
  - unfold result. rewrite category_unsorted, <-list_fmap_compose.
    rewrite (fmap_ext_elem_of _ fst) by done.
    apply groupby_keys.
  - apply (StronglySorted_merge_sort _).
  - unfold result.
    rewrite (sum_Qc_Permutation _ _
               (fmap_Permutation cm_Revenue _ _ (category_unsorted _))).
    rewrite <-list_fmap_compose.
    apply (groupby_sum str_le Product_Category Revenue_USD).
  - unfold result.
    rewrite (sum_Z_Permutation _ _
               (fmap_Permutation cm_Units_Sold _ _ (category_unsorted _))).
    rewrite <-list_fmap_compose.
    apply (groupby_sum_Z str_le Product_Category Units_Sold).
Qed.

Local Open Scope Qc_scope.




Local Close Scope Qc_scope.

End aggregators_more.


(** ** The alert engine: the two lists, part by part *)

Section alerts_more.
Import Inventory Alerts.
Variable fmt_1f : Qc → string.

Lemma merged_revenue_drop_pct (thresholds : gmap string Qc) :
  default Qc0 (merge_thresholds thresholds !! "revenue_drop_pct")
  = default (Qc_of_Z 15) (thresholds !! "revenue_drop_pct").
Proof.
  unfold merge_thresholds.
  destruct (thresholds !! "revenue_drop_pct") as [v|] eqn:Hv.
  - by rewrite (lookup_union_Some_l _ _ _ _ Hv).
  - by rewrite (lookup_union_r _ _ _ Hv).
Qed.

Lemma sales_alerts_threshold (hour_now : timestamp)
    (sales_data : list Sales.SalesRecord) (t1 t2 : gmap string Qc)
    (alerts : AlertLists) :
  t1 !! "revenue_drop_pct" = t2 !! "revenue_drop_pct" →
  sales_alerts fmt_1f hour_now sales_data t1 alerts
  = sales_alerts fmt_1f hour_now sales_data t2 alerts.
Proof. intros Heq. unfold sales_alerts. by rewrite Heq. Qed.

(** Of the thresholds only [revenue_drop_pct] is read (15 when it is not
    supplied): two configurations that agree on it give the same alerts
    and the same inventory frame. *)
Theorem check_alerts_reads_one_threshold (clock : nat → timestamp)
    (sales_data : list Sales.SalesRecord) (inventory_data : InventoryTable)
    (t1 t2 : gmap string Qc) :
  default (Qc_of_Z 15) (t1 !! "revenue_drop_pct")
  = default (Qc_of_Z 15) (t2 !! "revenue_drop_pct") →
  check_alerts fmt_1f clock sales_data inventory_data t1
  = check_alerts fmt_1f clock sales_data inventory_data t2.
Proof.
  intros Heq. rewrite <-!merged_revenue_drop_pct in Heq.
  unfold check_alerts. cbv zeta.
  case_bool_decide; [|done]. f_equal.
  unfold sales_alerts. by rewrite Heq.
Qed.

Local Open Scope Qc_scope.

Lemma Qc_pos_mult_iff (a c : Qc) : 0 < c → (0 < a ↔ 0 < a * c).
Proof.
  intros Hc. split.
  - intros Ha. rewrite <-(Qcmult_0_l c). by apply Qcmult_lt_compat_r.
  - intros Hac. apply Qcnot_le_lt. intros Hle.
    apply (Qclt_not_le _ _ Hac). rewrite <-(Qcmult_0_l c).
    apply Qcmult_le_compat_r; [done|by apply Qclt_le_weak].
Qed.


Local Close Scope Qc_scope.



Local Open Scope Qc_scope.




Local Close Scope Qc_scope.



Lemma filter_fmap {A B : Type} (f : A → B) (P : B → Prop)
    `{!∀ y, Decision (P y)} (l : list A) :
  filter P (f <$> l) = f <$> filter (P ∘ f) l.
Proof.
  induction l as [|x l IH]; [done|].
  rewrite fmap_cons, !filter_cons. simpl.
  destruct (decide (P (f x))); by rewrite IH.
Qed.

Lemma is_dead_stale (now : timestamp) (r : InventoryRecord) :
  is_dead (set_Days_Since_Restock (days_since now (Last_Restock_Date r)) r)
  = true ↔ stale now r.
Proof.
  unfold is_dead, stale, days_since, timedelta_days. simpl.
  assert (0 < us_per_day) as Hday by done.
  destruct (Last_Restock_Date r) as [t|]; simpl.
  - rewrite andb_true_iff, !bool_decide_eq_true. split.
    + intros [Hd Hs]. split; [done|]. exists t. split; [done|].
      pose proof (Z.mul_div_le (now - t) us_per_day Hday). nia.
    + intros (Hs & t' & [= <-] & Hd). split; [|done].
      assert (181 ≤ (now - t) `div` us_per_day); [|lia].
      apply Z.div_le_lower_bound; lia.
  - split; [done|]. by intros (_ & t & [=] & _).
Qed.

Lemma stock_value_assign (now : timestamp) (rs : list InventoryRecord) :
  stock_value
    ((λ r, set_Days_Since_Restock (days_since now (Last_Restock_Date r)) r)
       <$> rs)
  = stock_value rs.
Proof. unfold stock_value. by rewrite <-list_fmap_compose. Qed.

Lemma stock_value_assigned (now : timestamp) (inventory_data : InventoryTable) :
  stock_value (rows (assign_Days_Since_Restock now inventory_data))
  = stock_value (rows inventory_data).
Proof. apply stock_value_assign. Qed.

Lemma dead_stock_rows (now : timestamp) (inventory_data : InventoryTable) :
  filter (λ r, is_dead r = true)
    (rows (assign_Days_Since_Restock now inventory_data))
  = (λ r, set_Days_Since_Restock (days_since now (Last_Restock_Date r)) r)
      <$> filter (stale now) (rows inventory_data).
Proof.
  unfold assign_Days_Since_Restock. cbn [rows]. rewrite filter_fmap.
  f_equal. apply list_filter_iff. intros r. apply is_dead_stale.
Qed.

Local Open Scope Qc_scope.

(** The test of the dead-stock rule, without the division. *)
Lemma dead_stock_condition (dead total : Qc) :
  Qc_of_Z 10
  < (if bool_decide (Qc0 < total) then dead / total * Qc100 else Qc0)
  ↔ 0 < total ∧ total < Qc_of_Z 10 * dead.
Proof.
  assert (Qc100 = Qc_of_Z 10 * Qc_of_Z 10) as -> by by apply Qc_is_canon.
  assert (0 < Qc_of_Z 10) as Hten by done.
  generalize dependent (Qc_of_Z 10). intros ten Hten.
  assert (ten ≠ 0) as H10 by (intros ->; by apply Qclt_not_le in Hten).
  rewrite Qc0_eq. case_bool_decide as Ht.
  - assert (total ≠ 0) as Hne by (intros ->; by apply Qclt_not_le in Ht).
    assert (0 < total / ten) as Hc.
    { apply (Qc_pos_mult_iff _ ten); [done|].
      by replace (total / ten * ten) with total by by field. }
    rewrite (Qcmult_lt_mono_pos_r _ _ _ Hc).
    replace (ten * (total / ten)) with total by by field.
    replace (dead / total * (ten * ten) * (total / ten))
      with (ten * dead) by by field.
    tauto.
  - split; [intros Hlt|tauto].
    destruct (Qclt_not_le _ _ Hlt). by apply Qclt_le_weak.
Qed.

Local Close Scope Qc_scope.

(** The warnings the inventory rules add. *)
Lemma inventory_alerts_warning (restock_now : timestamp)
    (inventory_data : InventoryTable) (alerts : AlertLists) :
  let n := length (low_stock (rows inventory_data)) in
  warning (inventory_alerts fmt_1f restock_now inventory_data alerts).1
  = warning alerts
    ++ (if bool_decide (0 < n)%nat
        then [pretty n +:+ " SKUs below minimum stock threshold"] else [])
    ++ (if bool_decide
             ("Last_Restock_Date" ∈ columns inventory_data
              ∧ (Qc0 < stock_value (rows inventory_data))%Qc
              ∧ (stock_value (rows inventory_data)
                 < Qc_of_Z 10
                   * stock_value
                       (filter (stale restock_now) (rows inventory_data)))%Qc)
        then ["Dead stock (>180 days) represents "
              +:+ fmt_1f
                    (stock_value
                       (filter (stale restock_now) (rows inventory_data))
                     / stock_value (rows inventory_data) * Qc100)%Qc
              +:+ "% of inventory value"]
        else []).
Proof.
  intros n. unfold inventory_alerts.
  destruct (decide (rows inventory_data = [])) as [Hnil|Hrows].
  { unfold n. rewrite Hnil. simpl.
    rewrite bool_decide_eq_false_2; [by rewrite app_nil_r|].
    intros (_ & Hpos & _). by apply Qclt_not_le in Hpos. }
  rewrite (bool_decide_eq_true_2 (0 < length (rows inventory_data))%nat)
    by (destruct (rows inventory_data); [done|simpl; lia]).
  cbv zeta. fold n.
  set (a1 := if bool_decide (0 < n)%nat then add_warning _ alerts else alerts).
  set (low := if bool_decide (0 < n)%nat then [_] else []).
  assert (warning a1 = warning alerts ++ low) as Ha1.
  { unfold a1, low. case_bool_decide; [done|by rewrite app_nil_r]. }
  set (a2 := if bool_decide (0 < length (stockout _))%nat
             then add_critical _ a1 else a1).
  assert (warning a2 = warning alerts ++ low) as Ha2.
  { unfold a2. by case_bool_decide. }
  destruct (decide ("Last_Restock_Date" ∈ columns inventory_data))
    as [Hcol|Hcol].
  - rewrite (bool_decide_eq_true_2 _ Hcol). cbn [fst].
    rewrite dead_stock_rows, length_fmap, !stock_value_assign,
      !stock_value_assigned.
    set (dead := filter (stale restock_now) (rows inventory_data)).
    pose proof (dead_stock_condition (stock_value dead)
                  (stock_value (rows inventory_data))) as Hcond.
    rewrite Qc0_eq in Hcond |- *.
    destruct (decide (0 < length dead)%nat) as [Hdead|Hdead].
    + rewrite (bool_decide_eq_true_2 _ Hdead).
      destruct (decide (0 < stock_value (rows inventory_data))%Qc)
        as [Ht|Ht].
      * rewrite !(bool_decide_eq_true_2 _ Ht) in Hcond |- *.
        destruct (decide (Qc_of_Z 10
                          < stock_value dead
                            / stock_value (rows inventory_data) * Qc100)%Qc)
          as [Hpct|Hpct].
        -- rewrite (bool_decide_eq_true_2 _ Hpct).
           rewrite bool_decide_eq_true_2
             by (split; [done|by apply Hcond]).
           cbn [warning add_warning]. by rewrite Ha2, <-app_assoc.
        -- rewrite (bool_decide_eq_false_2 _ Hpct).
           rewrite bool_decide_eq_false_2; [by rewrite Ha2, app_nil_r|].
           intros (_ & Hlt). by apply Hpct, Hcond.
      * rewrite !(bool_decide_eq_false_2 _ Ht).
        rewrite (bool_decide_eq_false_2 (Qc_of_Z 10 < Qc0)%Qc) by done.
        rewrite bool_decide_eq_false_2; [by rewrite Ha2, app_nil_r|].
        by intros (_ & ? & _).
    + rewrite (bool_decide_eq_false_2 _ Hdead).
      rewrite bool_decide_eq_false_2; [by rewrite Ha2, app_nil_r|].
      intros (_ & Ht & Hlt). destruct dead; [|simpl in Hdead; lia].
      change (stock_value []) with Qc0 in Hlt.
      rewrite Qc0_eq, Qcmult_0_r in Hlt.
      apply (Qclt_not_le _ _ Hlt). by apply Qclt_le_weak.
  - rewrite (bool_decide_eq_false_2 _ Hcol). cbn [fst].
    rewrite bool_decide_eq_false_2; [by rewrite Ha2, app_nil_r|].
    by intros (? & _).
Qed.

Lemma kpi_low_stock_items (clock : nat → timestamp)
    (sales_data : list Sales.SalesRecord)
    (inventory_data : list InventoryRecord) :
  Kpi.low_stock_items (Kpi.calculate_kpis clock sales_data inventory_data)
  = length (low_stock inventory_data).
Proof.
  unfold Kpi.calculate_kpis.
  by destruct (Kpi.resolve_days (clock 0%nat) sales_data).
Qed.

(** The warnings the inventory adds to those of the sales table: the
    low-stock count (the one the KPIs report), when it is positive, then at
    most one dead-stock warning, raised exactly when the frame has a
    Last_Restock_Date column and the lines in stock that were restocked at
    least 181 days ago hold more than a tenth of a positive stock value. *)
Theorem inventory_warnings_anatomy (clock : nat → timestamp)
    (sales_data : list Sales.SalesRecord) (inventory_data : InventoryTable)
    (thresholds : gmap string Qc) :
  let now := clock (if bool_decide (0 < length sales_data)%nat
                    then 2%nat else 1%nat) in
  let n :=
    Kpi.low_stock_items
      (Kpi.calculate_kpis clock sales_data (rows inventory_data)) in
  let total := stock_value (rows inventory_data) in
  let dead_value := stock_value (filter (stale now) (rows inventory_data)) in
  ∃ dead,
    warning
      (check_alerts fmt_1f clock sales_data inventory_data thresholds).1
    = warning
        (check_alerts fmt_1f clock sales_data
           {| columns := columns inventory_data; rows := [] |}
           thresholds).1
      ++ (if bool_decide (0 < n)%nat
          then [pretty n +:+ " SKUs below minimum stock threshold"]
          else [])
      ++ dead ∧
    (length dead ≤ 1)%nat ∧
    (dead ≠ [] ↔
     "Last_Restock_Date" ∈ columns inventory_data ∧
     (0 < total)%Qc ∧ (total < Qc_of_Z 10 * dead_value)%Qc).
Proof.
  intros now n total dead_value. unfold n.
  rewrite kpi_low_stock_items. unfold check_alerts. cbv zeta. fold now.
  rewrite inventory_alerts_warning.
  rewrite (inventory_alerts_warning now {| columns := _; rows := [] |}).
  cbn [rows low_stock filter list_filter length].
  rewrite (bool_decide_eq_false_2 (0 < 0)%nat) by lia.
  rewrite (bool_decide_eq_false_2 (_ ∧ (Qc0 < stock_value [])%Qc ∧ _))
    by (intros (_ & Hpos & _); by apply Qclt_not_le in Hpos).
  rewrite !app_nil_r. fold total. fold dead_value.
  eexists. split; [done|]. rewrite <-Qc0_eq.
  case_bool_decide as Hdead; simpl.
  - split; [lia|]. done.
  - split; [lia|]. split; [done|]. intros ?. by destruct Hdead.
Qed.

Lemma assign_Days_Since_Restock_columns (now : timestamp)
    (inventory_data : InventoryTable) :
  "Days_Since_Restock"
    ∈ columns (assign_Days_Since_Restock now inventory_data) ∧
  ("Last_Restock_Date"
     ∈ columns (assign_Days_Since_Restock now inventory_data) ↔
   "Last_Restock_Date" ∈ columns inventory_data).
Proof.
  unfold assign_Days_Since_Restock. cbn [columns].
  case_bool_decide as Hd; [done|]. rewrite !elem_of_app. split.
  - right. left.
  - split; [intros [?|[=]%list_elem_of_singleton]; done|by left].
Qed.

Lemma filter_fmap_inv {A : Type} (f : A → A) (P : A → Prop)
    `{!∀ x, Decision (P x)} (l : list A) :
  (∀ x, P (f x) ↔ P x) → filter P (f <$> l) = f <$> filter P l.
Proof.
  intros Hf. induction l as [|x l IH]; [done|].
  rewrite fmap_cons, !filter_cons, IH.
  destruct (decide (P (f x))) as [Hx|Hx], (decide (P x)) as [Hx'|Hx'];
    [done| | |done].
  - destruct Hx'. by apply (Hf x).
  - destruct Hx. by apply (Hf x).
Qed.

Lemma assign_Days_Since_Restock_twice (now1 now2 : timestamp)
    (inventory_data : InventoryTable) :
  assign_Days_Since_Restock now2
    (assign_Days_Since_Restock now1 inventory_data)
  = assign_Days_Since_Restock now2 inventory_data.
Proof.
  unfold assign_Days_Since_Restock. cbn [columns rows]. f_equal.
  - destruct (decide ("Days_Since_Restock" ∈ columns inventory_data))
      as [Hd|Hd].
    + by rewrite !(bool_decide_eq_true_2 _ Hd).
    + rewrite (bool_decide_eq_false_2 _ Hd).
      rewrite bool_decide_eq_true_2; [done|].
      apply elem_of_app. right. left.
  - by rewrite <-list_fmap_compose.
Qed.

(** The inventory rules do not see the column an earlier call wrote. *)
Lemma inventory_alerts_after_assign (now1 now2 : timestamp)
    (inventory_data : InventoryTable) (alerts : AlertLists) :
  rows inventory_data ≠ [] →
  "Last_Restock_Date" ∈ columns inventory_data →
  inventory_alerts fmt_1f now2
    (assign_Days_Since_Restock now1 inventory_data) alerts
  = inventory_alerts fmt_1f now2 inventory_data alerts.
Proof.
  intros Hne Hcol.
  set (f := λ r, set_Days_Since_Restock
                   (days_since now1 (Last_Restock_Date r)) r).
  assert (rows (assign_Days_Since_Restock now1 inventory_data)
          = f <$> rows inventory_data) as Hrows by done.
  assert (low_stock (f <$> rows inventory_data)
          = f <$> low_stock (rows inventory_data)) as Hlow
    by by apply filter_fmap_inv.
  assert (stockout (f <$> rows inventory_data)
          = f <$> stockout (rows inventory_data)) as Hout
    by by apply filter_fmap_inv.
  assert (stockout_message
            (columns (assign_Days_Since_Restock now1 inventory_data))
            <$> take 5 (f <$> stockout (rows inventory_data))
          = stockout_message (columns inventory_data)
              <$> take 5 (stockout (rows inventory_data))) as Hmsg.
  { rewrite <-fmap_take, <-list_fmap_compose.
    apply fmap_ext_elem_of. intros r _. unfold stockout_message. simpl.
    destruct (bool_decide ("Days_Since_Restock" ∈ columns inventory_data));
      [done|].
    rewrite (bool_decide_ext _ ("Boutique_ID" ∈ columns inventory_data));
      [done|].
    rewrite elem_of_app, list_elem_of_singleton.
    split; [intros [?|[=]]; done|by left]. }
  destruct (assign_Days_Since_Restock_columns now1 inventory_data)
    as [_ Hlast].
  unfold inventory_alerts.
  rewrite assign_Days_Since_Restock_twice, Hrows, Hlow, Hout, Hmsg,
    !length_fmap.
  rewrite (bool_decide_eq_true_2 (0 < length (rows inventory_data))%nat)
    by (destruct (rows inventory_data); [done|simpl; lia]).
  cbv zeta.
  rewrite (bool_decide_eq_true_2 _ (proj2 Hlast Hcol)).
  by rewrite (bool_decide_eq_true_2 _ Hcol).
Qed.

(** The page calls [check_alerts] at every rerun, on the frame the call
    before wrote its Days_Since_Restock column into.  The alerts and the
    frame of such a call are those of the same call on the original
    frame: the column is overwritten, never added twice, and never read
    from an earlier run. *)
Theorem check_alerts_again (clock1 clock2 : nat → timestamp)
    (sales1 sales2 : list Sales.SalesRecord) (inventory_data : InventoryTable)
    (thresholds1 thresholds2 : gmap string Qc) :
  let once :=
    (check_alerts fmt_1f clock1 sales1 inventory_data thresholds1).2 in
  check_alerts fmt_1f clock2 sales2 once thresholds2
  = check_alerts fmt_1f clock2 sales2 inventory_data thresholds2.
Proof.
  intros once. unfold once, check_alerts. cbv zeta.
  rewrite inventory_alerts_frame.
  destruct (decide (rows inventory_data ≠ []
                    ∧ "Last_Restock_Date" ∈ columns inventory_data))
    as [[Hne Hcol]|Hframe].
  - rewrite (bool_decide_eq_true_2 (rows inventory_data ≠ [] ∧ _)) by done.
    by apply inventory_alerts_after_assign.
  - by rewrite (bool_decide_eq_false_2 (rows inventory_data ≠ [] ∧ _)).
Qed.

End alerts_more.

Lemma check_alerts_reads_one_threshold_witness :
  Alerts.check_alerts Samples.fmt_1f (Samples.noon 100) Samples.nine_days
    Samples.in_stock ∅
  = Alerts.check_alerts Samples.fmt_1f (Samples.noon 100) Samples.nine_days
      Samples.in_stock {["low_stock_threshold" := Qc_of_Z 1]}.
Proof.
  apply check_alerts_reads_one_threshold. vm_compute. reflexivity.
Defined.



(** ** Ingestion: what is returned and what is reported *)

Section loader_more.
Import Loader.
Variable read_csv : UploadedFile → string + DataFrame.
Variable read_excel : UploadedFile → string + DataFrame.
Variable to_datetime : list Cell → string + list Cell.

(** A file loads cleanly when it can be read, has the required columns and
    its Date column parses; [t] is then the table with the parsed dates. *)
Lemma try_load_clean (file : UploadedFile) (required : list string)
    (file_type load_error : string) (t : option DataFrame) :
  try_load read_csv read_excel to_datetime file required file_type
    load_error [] = (t, []) ↔
  ∃ data col dates,
    read_table read_csv read_excel file = inr data ∧
    (∀ c, c ∈ required → c ∈ columns data) ∧
    get_column "Date" data = Some col ∧
    to_datetime col = inr dates ∧
    t = Some (set_column "Date" dates data).
Proof.
  unfold try_load. destruct (read_table _ _ file) as [e|data].
  { split; [intros [=]|by intros (? & ? & ? & [=] & _)]. }
  rewrite app_nil_l. destruct (get_column "Date" data) as [col|] eqn:Hget.
  2:{ split.
      - intros [= _ Hnil].
        by destruct (validate_excel data required file_type).
      - intros (? & ? & ? & [= <-] & _ & Hget' & _). congruence. }
  destruct (to_datetime col) as [e|dates] eqn:Hparse.
  { split.
    - intros [= _ Hnil].
      by destruct (validate_excel data required file_type).
    - intros (? & ? & ? & [= <-] & _ & Hget' & Hparse' & _). congruence. }
  split.
  - intros [= <- Hvalid]. exists data, col, dates.
    split_and!; [done| |done..].
    exact (proj1 (validate_excel_complete _ _ _) Hvalid).
  - intros (? & ? & ? & [= <-] & Hreq & Hget' & Hparse' & ->).
    assert (validate_excel data required file_type = []) as ->
      by exact (proj2 (validate_excel_complete _ _ _) Hreq).
    congruence.
Qed.

Lemma load_data_parts (sales_file inventory_file : UploadedFile) :
  load_data read_csv read_excel to_datetime sales_file inventory_file
  = let s := try_load read_csv read_excel to_datetime sales_file
               sales_columns "Sales Report" "Error loading sales file: " [] in
    let i := try_load read_csv read_excel to_datetime inventory_file
               inventory_columns "Inventory Report"
               "Error loading inventory file: " [] in
    (s.1, i.1, s.2 ++ i.2).
Proof.
  unfold load_data. cbv zeta.
  destruct (try_load _ _ _ sales_file _ _ _ _) as [s es].
  rewrite try_load_appends.
  by destruct (try_load _ _ _ inventory_file _ _ _ _) as [i ei].
Qed.

(** [load_data] reports no error exactly when both files can be read, have
    all their required columns and a Date column that parses; the tables
    returned are then the files' tables with the parsed dates. *)
Theorem load_data_no_errors (sales_file inventory_file : UploadedFile) :
  let clean (file : UploadedFile) (required : list string)
        (t : option DataFrame) :=
    ∃ data col dates,
      read_table read_csv read_excel file = inr data ∧
      required ⊆ columns data ∧
      get_column "Date" data = Some col ∧
      to_datetime col = inr dates ∧
      t = Some (set_column "Date" dates data) in
  let result :=
    load_data read_csv read_excel to_datetime sales_file inventory_file in
  result.2 = [] ↔
  clean sales_file sales_columns result.1.1 ∧
  clean inventory_file inventory_columns result.1.2.
Proof.
  intros clean result. unfold result. rewrite load_data_parts. cbv zeta.
  unfold clean. cbn [fst snd].
  rewrite <-(try_load_clean sales_file sales_columns "Sales Report"
               "Error loading sales file: ").
  rewrite <-(try_load_clean inventory_file inventory_columns
               "Inventory Report" "Error loading inventory file: ").
  destruct (try_load _ _ _ sales_file _ _ _ _) as [s es],
           (try_load _ _ _ inventory_file _ _ _ _) as [i ei].
  cbn [fst snd]. split.
  - by intros [-> ->]%app_nil.
  - by intros [[= ->] [= ->]].
Qed.

Lemma set_column_columns (name : string) (col : list Cell) (df : DataFrame) :
  columns (set_column name col df) = columns df.
Proof.
  unfold columns, set_column. cbn [series]. rewrite <-list_fmap_compose.
  apply fmap_ext_elem_of. intros c _. simpl. by case_bool_decide.
Qed.

Lemma get_set_column (name : string) (col : list Cell) (df : DataFrame) :
  is_Some (get_column name df) →
  get_column name (set_column name col df) = Some col.
Proof.
  unfold get_column, set_column. destruct df as [cols]. cbn [series].
  induction cols as [|c cols IH]; [by intros [? [=]]|].
  rewrite fmap_cons, !filter_cons. simpl.
  destruct (decide (c.1 = name)) as [Hc|Hc].
  - rewrite bool_decide_eq_true_2 by done. simpl.
    by rewrite decide_True by done.
  - rewrite bool_decide_eq_false_2 by done.
    by rewrite decide_False by done.
Qed.

Lemma get_set_column_ne (name other : string) (col : list Cell)
    (df : DataFrame) :
  other ≠ name →
  get_column other (set_column name col df) = get_column other df.
Proof.
  intros Hne. unfold get_column, set_column. destruct df as [cols].
  cbn [series]. f_equal. f_equal.
  induction cols as [|c cols IH]; [done|].
  rewrite fmap_cons, !filter_cons, IH.
  case_bool_decide as Hc; simpl; [|done].
  rewrite !decide_False; [done|congruence|congruence].
Qed.

(** What a [try] block returns as its table does not depend on the
    validation. *)
Lemma try_load_table (file : UploadedFile) (required : list string)
    (file_type load_error : string) (t : DataFrame) :
  (try_load read_csv read_excel to_datetime file required file_type
     load_error []).1 = Some t ↔
  ∃ data col dates,
    read_table read_csv read_excel file = inr data ∧
    get_column "Date" data = Some col ∧
    to_datetime col = inr dates ∧
    t = set_column "Date" dates data.
Proof.
  unfold try_load. destruct (read_table _ _ file) as [e|data].
  { split; [intros [=]|by intros (? & ? & ? & [=] & _)]. }
  destruct (get_column "Date" data) as [col|] eqn:Hget.
  2:{ split; [intros [=]|].
      intros (? & ? & ? & [= <-] & Hget' & _). congruence. }
  destruct (to_datetime col) as [e|dates] eqn:Hparse.
  { split; [intros [=]|].
    intros (? & ? & ? & [= <-] & Hget' & Hparse' & _). congruence. }
  split.
  - intros [= <-]. by exists data, col, dates.
  - intros (? & ? & ? & [= <-] & Hget' & Hparse' & ->). simpl. congruence.
Qed.

(** A sales table that [load_data] returns is the table read from the
    file with its Date column parsed: same columns in the same order,
    every other column untouched. *)
Theorem load_data_returned_table (sales_file inventory_file : UploadedFile)
    (t : DataFrame) :
  (load_data read_csv read_excel to_datetime sales_file inventory_file).1.1
  = Some t →
  ∃ data col dates,
    read_table read_csv read_excel sales_file = inr data ∧
    get_column "Date" data = Some col ∧
    to_datetime col = inr dates ∧
    columns t = columns data ∧
    get_column "Date" t = Some dates ∧
    ∀ c, c ≠ "Date" → get_column c t = get_column c data.
Proof.
  rewrite load_data_parts. cbv zeta. cbn [fst].
  intros (data & col & dates & Hread & Hget & Hparse & ->)%try_load_table.
  exists data, col, dates. split_and!; [done..| | |].
  - apply set_column_columns.
  - apply get_set_column. by rewrite Hget.
  - intros c Hc. by apply get_set_column_ne.
Qed.

(** A readable sales file with a Date column but without some other
    required column is reported and returned all the same: the error list
    starts with the validation message and the first component is the
    table, not [None]. *)
Theorem load_data_keeps_unvalidated_table
    (sales_file inventory_file : UploadedFile) (data : DataFrame)
    (col dates : list Cell) :
  read_table read_csv read_excel sales_file = inr data →
  get_column "Date" data = Some col →
  to_datetime col = inr dates →
  ¬ (∀ c, c ∈ sales_columns → c ∈ columns data) →
  let result :=
    load_data read_csv read_excel to_datetime sales_file inventory_file in
  result.1.1 = Some (set_column "Date" dates data) ∧
  ∃ vmsg rest,
    validate_excel data sales_columns "Sales Report" = [vmsg] ∧
    result.2 = vmsg :: rest.
Proof.
  intros Hread Hget Hparse Hmissing result. unfold result.
  rewrite load_data_parts. cbv zeta. cbn [fst snd].
  destruct (validate_excel_missing data sales_columns "Sales Report" Hmissing)
    as (missing & _ & _ & Hmsg).
  unfold try_load at 1 2. rewrite Hread, Hget, Hparse, Hmsg. cbn [fst snd].
  split; [done|]. by eexists _, _.
Qed.

(** A table is missing from the result only with a message of its own
    [try] block in the error list; there are at most four messages. *)
Theorem load_data_absent_explained
    (sales_file inventory_file : UploadedFile) :
  let result :=
    load_data read_csv read_excel to_datetime sales_file inventory_file in
  (is_Some result.1.1 ∨
   ∃ msg, "Error loading sales file: " +:+ msg ∈ result.2) ∧
  (is_Some result.1.2 ∨
   ∃ msg, "Error loading inventory file: " +:+ msg ∈ result.2) ∧
  (length result.2 ≤ 4)%nat.
Proof.
  intros result. unfold result. rewrite load_data_parts. cbv zeta.
  cbn [fst snd].
  assert (∀ file required file_type load_error,
            let r := try_load read_csv read_excel to_datetime file required
                       file_type load_error [] in
            (is_Some r.1 ∨ ∃ msg, load_error +:+ msg ∈ r.2) ∧
            (length r.2 ≤ 2)%nat) as Hblock.
  { intros file required file_type load_error. unfold try_load.
    destruct (read_table _ _ file) as [e|data]; simpl.
    { split; [right; exists e; left|lia]. }
    assert (length (validate_excel data required file_type) ≤ 1)%nat
      by (unfold validate_excel; case_bool_decide; simpl; lia).
    destruct (get_column "Date" data) as [col|]; simpl.
    - destruct (to_datetime col) as [e|dates]; simpl.
      + split; [right; exists e|rewrite length_app; simpl; lia].
        apply elem_of_app. right. left.
      + split; [by left|lia].
    - split; [right; eexists|rewrite length_app; simpl; lia].
      apply elem_of_app. right. left. }
  destruct (Hblock sales_file sales_columns "Sales Report"
              "Error loading sales file: ") as [Hs Hsl].
  destruct (Hblock inventory_file inventory_columns "Inventory Report"
              "Error loading inventory file: ") as [Hi Hil].
  cbv zeta in *. split_and!.
  - destruct Hs as [?|[msg Hmsg]]; [by left|]. right. exists msg.
    apply elem_of_app. by left.
  - destruct Hi as [?|[msg Hmsg]]; [by left|]. right. exists msg.
    apply elem_of_app. by right.
  - rewrite length_app. lia.
Qed.

(** The upload handler leaves the session as it was, or stores two tables
    that hold all their required columns: a table that failed validation
    never reaches the engines. *)
Theorem process_uploaded_data_session
    (sales_file inventory_file : option UploadedFile)
    (session : App.Session) :
  let after :=
    (App.process_uploaded_data read_csv read_excel to_datetime
       sales_file inventory_file session).1 in
  after = session ∨
  ∃ sales inventory,
    after = {| App.sales_data := Some sales;
               App.inventory_data := Some inventory |} ∧
    sales_columns ⊆ columns sales ∧
    inventory_columns ⊆ columns inventory.
Proof.
  intros after. unfold after, App.process_uploaded_data.
  destruct sales_file as [sales_file|]; [|by left].
  destruct inventory_file as [inventory_file|]; [|by left].
  rewrite load_data_parts. cbv zeta.
  destruct (try_load _ _ _ sales_file _ _ _ _) as [s es] eqn:Hs.
  destruct (try_load _ _ _ inventory_file _ _ _ _) as [i ei] eqn:Hi.
  cbn [fst snd]. case_bool_decide as Herr; [by left|]. right.
  assert (es ++ ei = []) as [-> ->]%app_nil
    by (destruct (es ++ ei); [done|by destruct Herr]).
  apply try_load_clean in Hs as (sd & ? & ? & _ & Hsc & _ & _ & ->).
  apply try_load_clean in Hi as (id & ? & ? & _ & Hic & _ & _ & ->).
  eexists _, _. split; [done|]. by rewrite !set_column_columns.
Qed.

End loader_more.

Lemma load_data_returned_table_witness :
  ∃ t,
    (Loader.load_data Samples.read_excel Samples.read_excel
       Samples.to_datetime Samples.sales_csv Samples.inventory_xlsx).1.1
    = Some t ∧
    Loader.columns t = Loader.columns Samples.inventory_frame.
Proof.
  eexists. split; [vm_compute; reflexivity|].
  edestruct (load_data_returned_table Samples.read_excel Samples.read_excel
               Samples.to_datetime Samples.sales_csv Samples.inventory_xlsx)
    as (data & col & dates & Hread & _ & _ & Hcolumns & _);
    [vm_compute; reflexivity|].
  injection Hread as <-. exact Hcolumns.
Defined.

Lemma load_data_keeps_unvalidated_table_witness :
  is_Some
    (Loader.load_data Samples.read_excel Samples.read_excel
       Samples.to_datetime Samples.sales_csv Samples.inventory_xlsx).1.1 ∧
  (Loader.load_data Samples.read_excel Samples.read_excel
     Samples.to_datetime Samples.sales_csv Samples.inventory_xlsx).2 ≠ [].
Proof.
  destruct (load_data_keeps_unvalidated_table Samples.read_excel
              Samples.read_excel Samples.to_datetime Samples.sales_csv
              Samples.inventory_xlsx Samples.inventory_frame
              [Loader.CTime 0] [Loader.CTime 0])
    as (Htable & vmsg & rest & _ & Herrors).
  - reflexivity.
  - vm_compute. reflexivity.
  - reflexivity.
  - intros Hall.
    assert ("Boutique_Name" ∉ Loader.columns Samples.inventory_frame)
      as Hout
      by (apply (bool_decide_eq_false_1 _); vm_compute; reflexivity).
    apply Hout, Hall. apply (bool_decide_eq_true_1 _). vm_compute.
    reflexivity.
  - split; [by rewrite Htable|by rewrite Herrors].
Defined.

(** ** The charts *)

Section charts.
Import Sales Visualizations.


(** The revenue chart has one point per calendar date of the table, in
    date order, and its values add up to the total revenue. *)
Theorem revenue_chart_points (sales_data : list SalesRecord) :
  let chart := create_revenue_chart sales_data in
  lc_x chart ≡ₚ remove_dups ((λ r, date_of (Date r)) <$> sales_data) ∧
  StronglySorted Z.le (lc_x chart) ∧
  length (lc_y chart) = length (lc_x chart) ∧
  sum_Qc (lc_y chart) = revenue sales_data.
Proof.
  intros chart. unfold chart, create_revenue_chart, daily_revenue.
  cbv zeta. cbn [lc_x lc_y]. rewrite <-!list_fmap_compose.
  split_and!.
  - rewrite (fmap_ext_elem_of _ fst) by done. apply groupby_keys.
  - rewrite (fmap_ext_elem_of _ fst) by done.
    unfold groupby. rewrite <-list_fmap_compose.
    rewrite (fmap_ext_elem_of _ id) by done. rewrite list_fmap_id.
    apply (StronglySorted_merge_sort _).
  - by rewrite !length_fmap.
  - apply (groupby_sum Z.le (λ r, date_of (Date r)) Revenue_USD).
Qed.


(** The inventory chart has one pair of bars per category, and its bars
    add up to the stock and to the minimum thresholds of the whole
    table. *)
Theorem inventory_chart_totals
    (inventory_data : list Inventory.InventoryRecord) :
  let chart := create_inventory_chart inventory_data in
  gb_x chart ≡ₚ remove_dups (Inventory.Category <$> inventory_data) ∧
  sum_Z (gb_current_stock chart)
  = sum_Z (Inventory.Current_Stock_Units <$> inventory_data) ∧
  sum_Z (gb_min_threshold chart)
  = sum_Z (Inventory.Min_Stock_Threshold <$> inventory_data).
Proof.
  intros chart. unfold chart, create_inventory_chart, category_stock.
  cbv zeta. cbn [gb_x gb_current_stock gb_min_threshold].
  rewrite <-!list_fmap_compose. split_and!.
  - rewrite (fmap_ext_elem_of _ fst) by done. apply groupby_keys.
  - apply (groupby_sum_Z str_le Inventory.Category
             Inventory.Current_Stock_Units).
  - apply (groupby_sum_Z str_le Inventory.Category
             Inventory.Min_Stock_Threshold).
Qed.

End charts.

(** ** The demo generator: the shape of the tables *)

Section generator_more.
Import Loader.
Context {G : Type} `{!RandomState G}.

Lemma always_ret {A : Type} (P : A → Prop) (x : A) :
  P x → always_returns (G:=G) P (mret x).
Proof. by intros Hx w. Qed.

Lemma always_bind {A B : Type} (P : A → Prop) (Q : B → Prop) (m : M G A)
    (f : A → M G B) :
  always_returns P m → (∀ x, P x → always_returns Q (f x)) →
  always_returns Q (m ≫= f).
Proof.
  intros Hm Hf w. unfold mbind, M_bind. specialize (Hm w).
  destruct (m w) as [x w']. by apply Hf.
Qed.

Lemma always_weaken {A : Type} (P Q : A → Prop) (m : M G A) :
  always_returns P m → (∀ x, P x → Q x) → always_returns Q m.
Proof. intros Hm HPQ w. apply HPQ, Hm. Qed.

(** A loop whose every pass appends between [lo] and [hi] records, each
    related to the element of its pass. *)
Lemma always_for_each {A B : Type} (lo hi : nat) (R : A → B → Prop)
    (xs : list A) (body : A → M G (list B)) :
  (∀ x, x ∈ xs →
     always_returns (λ l, (lo ≤ length l ≤ hi)%nat ∧ Forall (R x) l)
       (body x)) →
  always_returns
    (λ l, (lo * length xs ≤ length l ≤ hi * length xs)%nat ∧
          Forall (λ r, ∃ x, x ∈ xs ∧ R x r) l)
    (for_each xs body).
Proof.
  induction xs as [|x xs IH]; intros Hbody.
  - apply always_ret. simpl. split; [lia|done].
  - cbn [for_each].
    eapply always_bind; [apply Hbody; left|]. intros r [Hlen Hr].
    eapply always_bind;
      [apply IH; intros; apply Hbody; by right|]. intros rs [Hlens Hrs].
    apply always_ret. split.
    + rewrite length_app. cbn [length]. lia.
    + apply Forall_app. split.
      * eapply Forall_impl; [done|]. intros b Hb. exists x. split; [left|done].
      * eapply Forall_impl; [done|]. intros b (y & Hy & Hb).
        exists y. split; [by right|done].
Qed.

Lemma always_now (clock : nat → timestamp) :
  always_returns (G:=G) (λ t, ∃ k, t = clock k) (datetime_now clock).
Proof. intros w. by eexists. Qed.

Lemma always_choice (a : list string) (p : option (list Qc)) :
  always_returns (G:=G) (λ _, True) (choice a p).
Proof. done. Qed.

Section in_range.
Hypothesis Hrange : randint_in_range G.

Lemma always_randint (low high : Z) :
  low < high →
  always_returns (G:=G) (λ z, low ≤ z < high) (randint low high).
Proof.
  intros Hlt w. unfold randint.
  pose proof (Hrange low high (rng w) Hlt) as Hz.
  by destruct (rs_randint low high (rng w)).
Qed.

Local Ltac draw :=
  eapply always_bind;
    [first [by apply always_randint | apply always_choice | apply always_now]
    |intros ? ?; cbv beta in *].

Lemma always_sales_record (strftime_Ymd : timestamp → string)
    (date : timestamp) (boutique region : string) (i : nat) :
  always_returns
    (λ r, Sales.Date r = date ∧ Sales.Boutique_Name r = boutique ∧
          Sales.Region r = region ∧
          1 ≤ Sales.Units_Sold r ≤ 3 ∧
          (∃ usd, Sales.Revenue_USD r = Qc_of_Z usd ∧ 5000 ≤ usd < 50000) ∧
          Sales.Transaction_ID r
          = "TXN" +:+ strftime_Ymd date +:+ zfill 4 i)
    (sales_record strftime_Ymd date boutique region i).
Proof.
  unfold sales_record. do 9 draw. apply always_ret. simpl.
  split_and!; try done; try lia. eexists. split; [done|lia].
Qed.

Lemma always_demo_sales (strftime_Ymd : timestamp → string)
    (dates : list timestamp) :
  always_returns
    (λ l, (30 * length dates ≤ length l ≤ 90 * length dates)%nat ∧
          Forall
            (λ r, Sales.Date r ∈ dates ∧
                  (Sales.Boutique_Name r, Sales.Region r)
                    ∈ zip boutiques regions ∧
                  1 ≤ Sales.Units_Sold r ≤ 3 ∧
                  (∃ usd, Sales.Revenue_USD r = Qc_of_Z usd
                          ∧ 5000 ≤ usd < 50000) ∧
                  ∃ i, (i < 15)%nat ∧
                       Sales.Transaction_ID r
                       = "TXN" +:+ strftime_Ymd (Sales.Date r)
                         +:+ zfill 4 i) l)
    (demo_sales strftime_Ymd dates).
Proof.
  unfold demo_sales.
  eapply always_weaken.
  - apply (always_for_each 30 90
             (λ date r,
                Sales.Date r = date ∧
                (Sales.Boutique_Name r, Sales.Region r)
                  ∈ zip boutiques regions ∧
                1 ≤ Sales.Units_Sold r ≤ 3 ∧
                (∃ usd, Sales.Revenue_USD r = Qc_of_Z usd
                        ∧ 5000 ≤ usd < 50000) ∧
                ∃ i, (i < 15)%nat ∧
                     Sales.Transaction_ID r
                     = "TXN" +:+ strftime_Ymd date +:+ zfill 4 i)).
    intros date _.
    eapply always_weaken.
    + apply (always_for_each 5 15
               (λ br r,
                  Sales.Date r = date ∧
                  (Sales.Boutique_Name r, Sales.Region r) = br ∧
                  1 ≤ Sales.Units_Sold r ≤ 3 ∧
                  (∃ usd, Sales.Revenue_USD r = Qc_of_Z usd
                          ∧ 5000 ≤ usd < 50000) ∧
                  ∃ i, (i < 15)%nat ∧
                       Sales.Transaction_ID r
                       = "TXN" +:+ strftime_Ymd date +:+ zfill 4 i)).
      intros br _. draw. rename x into num.
      eapply always_weaken.
      * apply (always_for_each 1 1
                 (λ i r,
                    Sales.Date r = date ∧
                    (Sales.Boutique_Name r, Sales.Region r) = br ∧
                    1 ≤ Sales.Units_Sold r ≤ 3 ∧
                    (∃ usd, Sales.Revenue_USD r = Qc_of_Z usd
                            ∧ 5000 ≤ usd < 50000) ∧
                    Sales.Transaction_ID r
                    = "TXN" +:+ strftime_Ymd date +:+ zfill 4 i)).
        intros i _. eapply always_bind; [apply always_sales_record|].
        intros r (Hd & Hb & Hr & Hu & Hrev & Hid). apply always_ret.
        split; [simpl; lia|]. apply Forall_singleton.
        split; [done|]. split; [|done]. destruct br. simpl in *. congruence.
      * intros l [Hlen Hl]. rewrite length_seq in Hlen. split; [lia|].
        eapply Forall_impl; [done|].
        intros r (i & Hi%elem_of_seq & ? & ? & ? & ? & ?).
        repeat (split; [done|]). exists i. split; [lia|done].
    + intros l [Hlen Hl]. change (length (zip boutiques regions)) with 6%nat
        in Hlen. split; [lia|].
      eapply Forall_impl; [done|].
      intros r (br & Hbr & ? & <- & ? & ? & ?). done.
  - intros l [Hlen Hl]. split; [lia|].
    eapply Forall_impl; [done|].
    intros r (d & Hd & <- & ? & ? & ? & ?). done.
Qed.

Lemma always_inventory_record (clock : nat → timestamp) (boutique : string)
    (i : nat) :
  always_returns
    (λ r, Inventory.Boutique_ID r = boutique_id boutique ∧
          Inventory.SKU_Code r = "SKU" +:+ pretty (1000 + i)%nat ∧
          0 ≤ Inventory.Current_Stock_Units r < 20 ∧
          Inventory.Min_Stock_Threshold r = 5 ∧
          Inventory.Max_Stock_Threshold r = 20 ∧
          Inventory.Days_Since_Restock r = None ∧
          ∃ k age, Inventory.Last_Restock_Date r
                   = Some (clock k - timedelta_days age) ∧ 1 ≤ age < 60)
    (inventory_record clock boutique i).
Proof.
  unfold inventory_record. do 9 draw. apply always_ret. simpl.
  repeat (split; [done|]).
  repeat match goal with
         | H : ∃ k, _ = clock k |- _ => destruct H as [? ->]
         end.
  eexists _, _. split; [reflexivity|done].
Qed.

Lemma always_demo_inventory (clock : nat → timestamp) :
  always_returns
    (λ l, length l = 300%nat ∧
          Forall
            (λ r, (∃ b i, b ∈ boutiques ∧ (i < 50)%nat ∧
                          Inventory.Boutique_ID r = boutique_id b ∧
                          Inventory.SKU_Code r
                          = "SKU" +:+ pretty (1000 + i)%nat) ∧
                  0 ≤ Inventory.Current_Stock_Units r < 20 ∧
                  Inventory.Min_Stock_Threshold r = 5 ∧
                  Inventory.Max_Stock_Threshold r = 20 ∧
                  Inventory.Days_Since_Restock r = None ∧
                  ∃ k age, Inventory.Last_Restock_Date r
                           = Some (clock k - timedelta_days age)
                           ∧ 1 ≤ age < 60) l)
    (demo_inventory clock).
Proof.
  unfold demo_inventory. eapply always_weaken.
  - apply (always_for_each 50 50
             (λ b r,
                (∃ i, (i < 50)%nat ∧
                      Inventory.Boutique_ID r = boutique_id b ∧
                      Inventory.SKU_Code r
                      = "SKU" +:+ pretty (1000 + i)%nat) ∧
                0 ≤ Inventory.Current_Stock_Units r < 20 ∧
                Inventory.Min_Stock_Threshold r = 5 ∧
                Inventory.Max_Stock_Threshold r = 20 ∧
                Inventory.Days_Since_Restock r = None ∧
                ∃ k age, Inventory.Last_Restock_Date r
                         = Some (clock k - timedelta_days age)
                         ∧ 1 ≤ age < 60)).
    intros b _. eapply always_weaken.
    + apply (always_for_each 1 1
               (λ i r,
                  Inventory.Boutique_ID r = boutique_id b ∧
                  Inventory.SKU_Code r = "SKU" +:+ pretty (1000 + i)%nat ∧
                  0 ≤ Inventory.Current_Stock_Units r < 20 ∧
                  Inventory.Min_Stock_Threshold r = 5 ∧
                  Inventory.Max_Stock_Threshold r = 20 ∧
                  Inventory.Days_Since_Restock r = None ∧
                  ∃ k age, Inventory.Last_Restock_Date r
                           = Some (clock k - timedelta_days age)
                           ∧ 1 ≤ age < 60)).
      intros i _. eapply always_bind; [apply always_inventory_record|].
      intros r Hr. apply always_ret. split; [simpl; lia|].
      by apply Forall_singleton.
    + intros l [Hlen Hl]. rewrite length_seq in Hlen. split; [lia|].
      eapply Forall_impl; [done|].
      intros r (i & Hi%elem_of_seq & ? & ? & ?).
      split; [|done]. exists i. split; [lia|done].
  - intros l [Hlen Hl]. change (length boutiques) with 6%nat in Hlen.
    split; [lia|]. eapply Forall_impl; [done|].
    intros r (b & Hb & (i & ? & ? & ?) & ?). split; [|done].
    by exists b, i.
Qed.

Lemma length_date_range (e : timestamp) (periods : nat) :
  length (date_range e periods) = periods.
Proof. unfold date_range. by rewrite length_fmap, length_seq. Qed.

(** The two tables of one call, property by property. *)
Lemma generate_demo_data_tables (clock : nat → timestamp)
    (strftime_Ymd : timestamp → string) (g : G)
    (P : list Sales.SalesRecord → Prop)
    (Q : list Inventory.InventoryRecord → Prop) :
  always_returns P (demo_sales strftime_Ymd (date_range (clock 0%nat) 30)) →
  always_returns Q (demo_inventory clock) →
  let r := (generate_demo_data clock strftime_Ymd g).1 in
  P r.1 ∧ Q (Inventory.rows r.2) ∧
  Inventory.columns r.2 = demo_inventory_columns.
Proof.
  intros HP HQ. rewrite generate_demo_data_seeded.
  specialize (HP {| rng := rs_seed 42; ticks := 1 |}).
  unfold demo_tables, mbind, M_bind, datetime_now. cbn [ticks rng].
  destruct (demo_sales _ _ _) as [s w]. specialize (HQ w).
  by destruct (demo_inventory _ _) as [i w'].
Qed.

(** The demo sales table, for a generator whose [randint] keeps to its
    range: between 900 and 2700 rows, each dated on one of the 30 days
    ending at the call, at one of the six boutiques with its region, with
    1 to 3 units, a whole-dollar revenue from 5000 to 49999 and a
    transaction id made of the date and a counter below 15. *)
Theorem demo_sales_shape (clock : nat → timestamp)
    (strftime_Ymd : timestamp → string) (g : G) :
  let sales_data := (generate_demo_data clock strftime_Ymd g).1.1 in
  (900 ≤ length sales_data ≤ 2700)%nat ∧
  Forall
    (λ r, Sales.Date r ∈ date_range (clock 0%nat) 30 ∧
          (Sales.Boutique_Name r, Sales.Region r) ∈ zip boutiques regions ∧
          1 ≤ Sales.Units_Sold r ≤ 3 ∧
          (∃ usd, Sales.Revenue_USD r = Qc_of_Z usd ∧ 5000 ≤ usd < 50000) ∧
          ∃ i, (i < 15)%nat ∧
               Sales.Transaction_ID r
               = "TXN" +:+ strftime_Ymd (Sales.Date r) +:+ zfill 4 i)
    sales_data.
Proof.
  intros sales_data.
  destruct (generate_demo_data_tables clock strftime_Ymd g _ (λ _, True)
              (always_demo_sales strftime_Ymd
                 (date_range (clock 0%nat) 30))) as ([Hlen Hrows] & _);
    [done|].
  rewrite length_date_range in Hlen. fold sales_data in Hlen, Hrows.
  split; [lia|done].
Qed.

(** The demo inventory: the 13 columns, 300 lines (50 per boutique), stock
    from 0 to 19 against the thresholds 5 and 20, a last restock 1 to 59
    days before a reading of the clock. *)
Theorem demo_inventory_shape (clock : nat → timestamp)
    (strftime_Ymd : timestamp → string) (g : G) :
  let inventory_data := (generate_demo_data clock strftime_Ymd g).1.2 in
  Inventory.columns inventory_data = demo_inventory_columns ∧
  length (Inventory.rows inventory_data) = 300%nat ∧
  Forall
    (λ r, (∃ b i, b ∈ boutiques ∧ (i < 50)%nat ∧
                  Inventory.Boutique_ID r = boutique_id b ∧
                  Inventory.SKU_Code r = "SKU" +:+ pretty (1000 + i)%nat) ∧
          0 ≤ Inventory.Current_Stock_Units r < 20 ∧
          Inventory.Min_Stock_Threshold r = 5 ∧
          Inventory.Max_Stock_Threshold r = 20 ∧
          Inventory.Days_Since_Restock r = None ∧
          ∃ k age, Inventory.Last_Restock_Date r
                   = Some (clock k - timedelta_days age) ∧ 1 ≤ age < 60)
    (Inventory.rows inventory_data).
Proof.
  intros inventory_data.
  destruct (generate_demo_data_tables clock strftime_Ymd g (λ _, True) _
              ltac:(done) (always_demo_inventory clock))
    as (_ & [Hlen Hrows] & Hcols).
  by fold inventory_data in Hlen, Hrows, Hcols.
Qed.

Lemma nunique_le_candidates `{EqDecision B} (l candidates : list B) :
  (∀ x, x ∈ l → x ∈ candidates) → (nunique l ≤ length candidates)%nat.
Proof.
  intros Hl. unfold nunique.
  apply submseteq_length, NoDup_submseteq; [apply NoDup_remove_dups|].
  intros x Hx. apply Hl. exact (proj1 (elem_of_remove_dups _ _) Hx).
Qed.

Lemma length_bind_const {A B : Type} (f : A → list B) (n : nat)
    (l : list A) :
  (∀ x, length (f x) = n) → length (l ≫= f) = (length l * n)%nat.
Proof.
  intros Hf. induction l as [|x l IH]; [done|].
  rewrite bind_cons, length_app, Hf, IH. simpl. lia.
Qed.

(** The demo transaction ids restart at every boutique: the 900 or more
    rows share at most 450 ids, so counts of distinct transactions on the
    demo data are below the number of sales. *)
Theorem demo_transaction_ids_shared (clock : nat → timestamp)
    (strftime_Ymd : timestamp → string) (g : G) :
  let sales_data := (generate_demo_data clock strftime_Ymd g).1.1 in
  (Sales.transactions sales_data ≤ 450)%nat ∧
  (900 ≤ length sales_data)%nat.
Proof.
  intros sales_data.
  destruct (generate_demo_data_tables clock strftime_Ymd g _ (λ _, True)
              (always_demo_sales strftime_Ymd
                 (date_range (clock 0%nat) 30))) as ([Hlen Hrows] & _);
    [done|].
  rewrite length_date_range in Hlen. fold sales_data in Hlen, Hrows.
  split; [|lia].
  set (ids := date_range (clock 0%nat) 30 ≫= λ date,
                (λ i, "TXN" +:+ strftime_Ymd date +:+ zfill 4 i)
                  <$> seq 0 15).
  assert (length ids = 450%nat) as <-.
  { unfold ids. rewrite (length_bind_const _ 15), length_date_range; [done|].
    intros date. by rewrite length_fmap, length_seq. }
  apply nunique_le_candidates.
  intros x (r & -> & Hr)%list_elem_of_fmap.
  destruct (proj1 (Forall_forall _ _) Hrows r Hr)
    as (Hdate & _ & _ & _ & i & Hi & ->).
  apply list_elem_of_bind. exists (Sales.Date r). split; [|done].
  apply (list_elem_of_fmap_2' _ _ i); [|done].
  apply elem_of_seq. simpl. lia.
Qed.

End in_range.

End generator_more.

Lemma lcg_in_range : Loader.randint_in_range Z.
Proof.
  intros low high g Hlt. simpl.
  pose proof (Z.mod_pos_bound (Samples.lcg_next g) (high - low)). lia.
Qed.

Lemma demo_sales_shape_witness :
  (900 ≤ length
           (Loader.generate_demo_data (Samples.noon 100) Samples.day_stamp
              7%Z).1.1 ≤ 2700)%nat.
Proof.
  pose proof (demo_sales_shape (G:=Z) lcg_in_range (Samples.noon 100)
                Samples.day_stamp 7) as [Hlen _].
  exact Hlen.
Defined.

Lemma demo_inventory_shape_witness :
  length
    (Inventory.rows
       (Loader.generate_demo_data (Samples.noon 100) Samples.day_stamp
          7%Z).1.2) = 300%nat.
Proof.
  pose proof (demo_inventory_shape (G:=Z) lcg_in_range (Samples.noon 100)
                Samples.day_stamp 7) as (_ & Hlen & _).
  exact Hlen.
Defined.

Lemma demo_transaction_ids_shared_witness :
  (Sales.transactions
     (Loader.generate_demo_data (Samples.noon 100) Samples.day_stamp
        7%Z).1.1 ≤ 450)%nat.
Proof.
  pose proof (demo_transaction_ids_shared (G:=Z) lcg_in_range
                (Samples.noon 100) Samples.day_stamp 7) as [Hids _].
  exact Hids.
Defined.

(** ** The page: one engine after another *)

Section page.
Import Loader Inventory Alerts.
Variable fmt_1f : Qc → string.

Lemma groupby_fmap {A K : Type} `{EqDecision K} (R : relation K)
    `{!RelDecision R} (key : A → K) (f : A → A) (rows : list A) :
  (∀ r, key (f r) = key r) →
  groupby R key (f <$> rows)
  = (λ g : K * list A, (g.1, f <$> g.2)) <$> groupby R key rows.
Proof.
  intros Hkey. unfold groupby.
  rewrite <-!list_fmap_compose.
  rewrite (fmap_ext_elem_of (key ∘ f) key) by (intros r _; apply Hkey).
  apply fmap_ext_elem_of. intros k _. simpl. f_equal.
  apply filter_fmap_inv. intros r. by rewrite Hkey.
Qed.

Lemma filter_none {A : Type} (P : A → Prop) `{!∀ x, Decision (P x)}
    (l : list A) :
  (∀ x, x ∈ l → ¬ P x) → filter P l = [].
Proof.
  intros Hl. destruct (filter P l) as [|x l'] eqn:Hfilter; [done|].
  assert (x ∈ filter P l) as [Hx Hin]%list_elem_of_filter
    by (rewrite Hfilter; left).
  by destruct (Hl x Hin).
Qed.

(** The page draws the inventory chart from the frame as [check_alerts]
    left it; the chart is that of the frame as it was loaded. *)
Theorem inventory_chart_after_alerts (clock : nat → timestamp)
    (sales_data : list Sales.SalesRecord) (inventory_data : InventoryTable)
    (thresholds : gmap string Qc) :
  let after :=
    (check_alerts fmt_1f clock sales_data inventory_data thresholds).2 in
  Visualizations.create_inventory_chart (rows after)
  = Visualizations.create_inventory_chart (rows inventory_data).
Proof.
  intros after. unfold after, check_alerts. cbv zeta.
  rewrite inventory_alerts_frame.
  destruct (bool_decide (rows inventory_data ≠ [] ∧ _)); [|done].
  unfold assign_Days_Since_Restock. cbn [rows].
  unfold Visualizations.create_inventory_chart. cbv zeta.
  assert (Visualizations.category_stock
            ((λ r, set_Days_Since_Restock
                     (days_since
                        (clock (if bool_decide (0 < length sales_data)%nat
                                then 2%nat else 1%nat))
                        (Last_Restock_Date r)) r)
               <$> rows inventory_data)
          = Visualizations.category_stock (rows inventory_data)) as ->;
    [|done].
  unfold Visualizations.category_stock.
  rewrite groupby_fmap by done. rewrite <-list_fmap_compose.
  apply fmap_ext_elem_of. intros g _. simpl.
  by rewrite <-!list_fmap_compose.
Qed.

Context {G : Type} `{!RandomState G}.

(** On the demo inventory the dead-stock warning cannot fire while the
    clock is less than 121 days past the generation: the inventory adds
    the low-stock count to the warnings and nothing else. *)
Theorem demo_data_no_dead_stock (clock clock' : nat → timestamp)
    (strftime_Ymd : timestamp → string) (g : G)
    (sales_data : list Sales.SalesRecord) (thresholds : gmap string Qc) :
  randint_in_range G →
  (∀ j k, clock' j - clock k < timedelta_days 121) →
  let inventory_data := (generate_demo_data clock strftime_Ymd g).1.2 in
  let n := length (low_stock (rows inventory_data)) in
  warning
    (check_alerts fmt_1f clock' sales_data inventory_data thresholds).1
  = warning
      (check_alerts fmt_1f clock' sales_data
         {| columns := columns inventory_data; rows := [] |} thresholds).1
    ++ (if bool_decide (0 < n)%nat
        then [pretty n +:+ " SKUs below minimum stock threshold"]
        else []).
Proof.
  intros Hrange Hclock inventory_data n.
  destruct (generate_demo_data_tables clock strftime_Ymd g (λ _, True) _
              ltac:(done) (always_demo_inventory Hrange clock))
    as (_ & [_ Hrows] & _).
  fold inventory_data in Hrows.
  unfold check_alerts. cbv zeta.
  set (now := clock' (if bool_decide (0 < length sales_data)%nat
                      then 2%nat else 1%nat)).
  rewrite inventory_alerts_warning.
  rewrite (inventory_alerts_warning fmt_1f now {| columns := _; rows := [] |}).
  cbn [rows low_stock filter list_filter length].
  rewrite (bool_decide_eq_false_2 (0 < 0)%nat) by lia.
  rewrite (bool_decide_eq_false_2 (_ ∧ (Qc0 < stock_value [])%Qc ∧ _))
    by (intros (_ & Hpos & _); by apply Qclt_not_le in Hpos).
  rewrite !app_nil_r. fold n. f_equal.
  assert (filter (stale now) (rows inventory_data) = []) as ->.
  { apply filter_none. intros r Hr (_ & t & Ht & Hage).
    destruct (proj1 (Forall_forall _ _) Hrows r Hr)
      as (_ & _ & _ & _ & _ & k & age & Hlast & Hrecent).
    rewrite Hlast in Ht. injection Ht as <-.
    pose proof (Hclock (if bool_decide (0 < length sales_data)%nat
                        then 2%nat else 1%nat) k) as Hk.
    fold now in Hk. unfold timedelta_days, us_per_day, us_per_hour in *.
    lia. }
  rewrite (bool_decide_eq_false_2 ("Last_Restock_Date" ∈ _ ∧ _));
    [by rewrite app_nil_r|].
  intros (_ & Hpos & Hlt). change (stock_value []) with Qc0 in Hlt.
  rewrite Qc0_eq, Qcmult_0_r in Hlt.
  apply (Qclt_not_le _ _ Hlt). rewrite Qc0_eq in Hpos.
  by apply Qclt_le_weak.
Qed.

End page.

Lemma demo_data_no_dead_stock_witness :
  let inventory_data :=
    (Loader.generate_demo_data (Samples.noon 100) Samples.day_stamp
       7%Z).1.2 in
  let n := length (Inventory.low_stock (Inventory.rows inventory_data)) in
  Alerts.warning
    (Alerts.check_alerts Samples.fmt_1f (Samples.noon 130) Samples.two_days
       inventory_data ∅).1
  = Alerts.warning
      (Alerts.check_alerts Samples.fmt_1f (Samples.noon 130)
         Samples.two_days
         {| Inventory.columns := Inventory.columns inventory_data;
            Inventory.rows := [] |} ∅).1
    ++ (if bool_decide (0 < n)%nat
        then [pretty n +:+ " SKUs below minimum stock threshold"]
        else []).
Proof.
  apply (demo_data_no_dead_stock (G:=Z) Samples.fmt_1f (Samples.noon 100)
           (Samples.noon 130) Samples.day_stamp 7 Samples.two_days ∅
           lcg_in_range).
  intros j k. unfold Samples.noon, timedelta_days, us_per_day, us_per_hour.
  lia.
Defined.
